(** * Device communication core of the BLE water-meter screen

    A shallow embedding of the communication code of [src/App.tsx] and
    [src/ble.tsx]: the binary codec (DLMS Get-Request frame, response
    parsers), the scan listener and the connection handlers of the
    [BLEInterface] component.

    [src/App.tsx] holds three revisions of [BLEInterface].  The last one
    (with [parseMeterReading]) is modelled in full, in the modules
    [App_codec] and [App]; of the first one the module [RevA] holds the
    DLMS request and its voltage parser, of the second one the module
    [RevB] holds [fetchDeviceInformation].  [src/ble.tsx] is the module
    [Ble].  [stopScan], [disconnectDevice] and the disconnect listener
    have the same text in all of them and are modelled once.

    Conventions.
    - A [Buffer] (a [Uint8Array]) is a [list byte].
    - A JavaScript number that holds an integer below 2^53 is the same
      integer in [Z]; the 32-bit wrap-around of [<<] and [|] is written
      out.  The one division of the codec is an IEEE-754 binary64
      division, a primitive [float].
    - A JavaScript string is kept as the bytes of the UTF-8 encoding of
      its code points.
    - A JavaScript exception is a [Throw] completion; [try]/[catch] is
      [try_catch].
    - The component state is the record [World]; a handler reads the
      state cell [connectedDevice] through its closure, that is, with
      the value the cell had when the handler was invoked.
    - Timers ([setTimeout]) and rendering are not modelled. *)

From Stdlib Require Import ZArith Lia.
From Stdlib Require Import Floats.PrimFloat Numbers.Cyclic.Int63.Uint63.
From Stdlib Require Import Strings.Byte Strings.Ascii Strings.String.
From stdpp Require Import base list gmap strings.

Local Open Scope Z_scope.

(** ** JavaScript values and completions *)

Inductive JsError :=
| RangeError (message : string)
| Error (message : string).

Definition message_of (e : JsError) : string :=
  match e with RangeError m | Error m => m end.

Inductive completion (A : Type) :=
| Normal (a : A)
| Throw (e : JsError).
Arguments Normal {A} a.
Arguments Throw {A} e.

Definition is_Normal {A} (c : completion A) : bool :=
  match c with Normal _ => true | Throw _ => false end.

(** ** 32-bit integer operators *)

Module Int32.

(** [ToInt32]: reduce modulo 2^32 into [-2^31, 2^31). *)
Definition ToInt32 (z : Z) : Z := (z + 2 ^ 31) mod 2 ^ 32 - 2 ^ 31.

(** [a << n] *)
Definition shl (a n : Z) : Z := ToInt32 (Z.shiftl (ToInt32 a) (n mod 32)).

(** [a | b] *)
Definition or (a b : Z) : Z := Z.lor (ToInt32 a) (ToInt32 b).

End Int32.

(** ** The [buffer] package: bounds-checked reads *)

Definition Buffer := list byte.

Definition byte_to_Z (b : byte) : Z := Z.of_N (Byte.to_N b).

(** Reads are run in a small monad that records every index handed to
    the element access [this[i]], so that the set of bytes a read touches
    is part of its result. *)
Definition BufRead (A : Type) : Type := Buffer -> completion A * list nat.

Definition bret {A} (a : A) : BufRead A := fun _ => (Normal a, []).

Definition bbind {A B} (m : BufRead A) (k : A -> BufRead B) : BufRead B :=
  fun buf =>
    match m buf with
    | (Normal a, log) => let '(r, log') := k a buf in (r, log ++ log')
    | (Throw e, log) => (Throw e, log)
    end.

Definition bthrow {A} (e : JsError) : BufRead A := fun _ => (Throw e, []).

(** [this.length] *)
Definition blength : BufRead Z := fun buf => (Normal (Z.of_nat (length buf)), []).

(** [this[i]].  Out of range JavaScript yields [undefined] and touches no
    memory; the model yields [0] there and still records the index, and
    [reads_in_bounds] below shows that no read ever asks for such an
    index. *)
Definition elem (i : Z) : BufRead Z :=
  fun buf => (Normal (default 0 (byte_to_Z <$> buf !! Z.to_nat i)), [Z.to_nat i]).

Declare Scope bufread_scope.
Delimit Scope bufread_scope with bufread.
Notation "x <~ m ;; k" := (bbind m (fun x => k))
  (at level 100, m at next level, right associativity) : bufread_scope.

Local Open Scope bufread_scope.

(** [checkOffset(offset, ext, length)] *)
Definition checkOffset (offset ext : Z) : BufRead unit :=
  len <~ blength ;;
  if Z.ltb len (offset + ext)
  then bthrow (RangeError "Trying to access beyond buffer length")
  else bret tt.

(** [readUInt16BE(offset)]: [(this[offset] << 8) | this[offset + 1]] *)
Definition readUInt16BE (offset : Z) : BufRead Z :=
  _ <~ checkOffset offset 2 ;;
  hi <~ elem offset ;;
  lo <~ elem (offset + 1) ;;
  bret (Int32.or (Int32.shl hi 8) lo).

(** [readUInt16LE(offset)]: [this[offset] | (this[offset + 1] << 8)] *)
Definition readUInt16LE (offset : Z) : BufRead Z :=
  _ <~ checkOffset offset 2 ;;
  lo <~ elem offset ;;
  hi <~ elem (offset + 1) ;;
  bret (Int32.or lo (Int32.shl hi 8)).

(** [readUInt32BE(offset)]:
    [this[offset] * 0x1000000 +
     ((this[offset+1] << 16) | (this[offset+2] << 8) | this[offset+3])] *)
Definition readUInt32BE (offset : Z) : BufRead Z :=
  _ <~ checkOffset offset 4 ;;
  b0 <~ elem offset ;;
  b1 <~ elem (offset + 1) ;;
  b2 <~ elem (offset + 2) ;;
  b3 <~ elem (offset + 3) ;;
  bret (b0 * 16777216 + Int32.or (Int32.or (Int32.shl b1 16) (Int32.shl b2 8)) b3).

Local Close Scope bufread_scope.

(** The integer-valued number [z] as a binary64 value (exact for
    [0 <= z < 2^53]; the codec only converts values below 2^32). *)
Definition number_of_Z (z : Z) : float := PrimFloat.of_uint63 (Uint63.of_Z z).

(** The value a big-endian field of [width] bytes denotes. *)
Fixpoint be_value (bytes : list byte) : Z :=
  match bytes with
  | [] => 0
  | b :: rest => byte_to_Z b * 256 ^ Z.of_nat (length rest) + be_value rest
  end.

(** The [width] bytes of [buf] that start at [offset]. *)
Definition field (offset width : nat) (buf : Buffer) : list byte :=
  take width (drop offset buf).

(** ** Console *)

Inductive Level := LLog | LWarn | LError.

(** The values that reach the console or the component state.  The pieces
    of a template literal or of a string concatenation are kept as
    separate arguments of the entry. *)
Inductive JsValue :=
| VNull
| VStr (s : string)
| VInt (z : Z)
| VNaN.

Definition LogEntry : Type := Level * list JsValue.

(** ** Response parsers (last revision of [src/App.tsx]) *)

Module App_codec.

(** What one call of a parser does: the value it returns ([None] is
    [null]), the buffer indices it touched and what it printed. *)
Record ParseRun (A : Type) := {
  returned : option A;
  touched : list nat;
  printed : list LogEntry
}.
Arguments returned {A} _.
Arguments touched {A} _.
Arguments printed {A} _.

Definition parseBatteryVoltage_run (decodedValue : Buffer) : ParseRun float :=
  let offset := 3 in
  match readUInt16BE offset decodedValue with
  | (Normal batteryVoltageRaw, idx) =>
      {| returned := Some (PrimFloat.div (number_of_Z batteryVoltageRaw) (number_of_Z 1000));
         touched := idx;
         printed := [(LLog, [VStr "batteryVoltageRaw"; VInt batteryVoltageRaw])] |}
  | (Throw error, idx) =>
      {| returned := None;
         touched := idx;
         printed := [(LError, [VStr "Failed to parse battery voltage:";
                               VStr (message_of error)])] |}
  end.

Definition parseMeterReading_run (decodedValue : Buffer) : ParseRun Z :=
  let offset := 3 in
  match readUInt32BE offset decodedValue with
  | (Normal meterReadingRaw, idx) =>
      {| returned := Some meterReadingRaw;
         touched := idx;
         printed := [(LLog, [VStr "MeterReadingRaw: "; VInt meterReadingRaw])] |}
  | (Throw error, idx) =>
      {| returned := None;
         touched := idx;
         printed := [(LError, [VStr "Failed to parse meter reading:";
                               VStr (message_of error)])] |}
  end.

Definition parseBatteryVoltage (decodedValue : Buffer) : option float :=
  returned (parseBatteryVoltage_run decodedValue).

Definition parseMeterReading (decodedValue : Buffer) : option Z :=
  returned (parseMeterReading_run decodedValue).

End App_codec.

(** ** [parseInt], hex text and [Buffer.from(s, "hex")] *)

Definition byte_of_Z (z : Z) : byte := default x00 (Byte.of_N (Z.to_N z)).

(** The value of one hex digit, either case. *)
Definition hexValue (c : ascii) : option Z :=
  let n := Z.of_N (N_of_ascii c) in
  if (48 <=? n) && (n <=? 57) then Some (n - 48)
  else if (97 <=? n) && (n <=? 102) then Some (n - 87)
  else if (65 <=? n) && (n <=? 70) then Some (n - 55)
  else None.

Inductive number :=
| Int (z : Z)
| NaN.

Fixpoint skipWhiteSpace (s : string) : string :=
  match s with
  | String c rest =>
      let n := Z.of_N (N_of_ascii c) in
      if (n =? 32) || ((9 <=? n) && (n <=? 13)) then skipWhiteSpace rest else s
  | EmptyString => s
  end.

Fixpoint hexPrefix (s : string) (acc : option Z) : option Z :=
  match s with
  | String c rest =>
      match hexValue c with
      | Some v => hexPrefix rest (Some (default 0 acc * 16 + v))
      | None => acc
      end
  | EmptyString => acc
  end.

(** [parseInt(s, 16)]: white space (the ASCII white space; the texts
    parsed here are ASCII), a sign and a [0x] prefix are skipped, then the
    longest run of hex digits is read; [NaN] when it is empty.
    [Int z] is the integer that was read.  The number JavaScript returns
    is the binary64 value nearest to it: the same integer up to 2^53
    (13 hex digits stay below 2^52), a rounded one beyond, and [-0] for
    a negative zero.  [Buffer_from_hex] parses two characters at a time
    and keeps the result modulo 256, so it is exact. *)
Definition parseInt16 (s : string) : number :=
  let s := skipWhiteSpace s in
  let '(sign, s) :=
    match s with
    | String "-" rest => (-1, rest)
    | String "+" rest => (1, rest)
    | _ => (1, s)
    end%char in
  let s :=
    match s with
    | String "0" (String "x" rest) | String "0" (String "X" rest) => rest
    | _ => s
    end%char in
  match hexPrefix s None with
  | Some v => Int (sign * v)
  | None => NaN
  end.

(** [Buffer.from(s, "hex")] of the [buffer] package: every pair of
    characters goes through [parseInt(pair, 16)] and is stored as a byte
    (modulo 256); decoding stops at the first pair that gives [NaN], and
    a trailing odd character is dropped.  On text made of hex digit pairs
    this is the plain hex decoding. *)
Fixpoint Buffer_from_hex (s : string) : Buffer :=
  match s with
  | String c1 (String c2 rest) =>
      match parseInt16 (String c1 (String c2 EmptyString)) with
      | Int parsed => byte_of_Z (parsed mod 256) :: Buffer_from_hex rest
      | NaN => []
      end
  | _ => []
  end.

Definition hexDigit (n : Z) : ascii :=
  default "0"%char (String.get (Z.to_nat n) "0123456789abcdef").

(** The hex text of a byte sequence, two lower-case digits per byte: how
    a 6-byte OBIS code is written in the source. *)
Fixpoint toHex (bytes : list byte) : string :=
  match bytes with
  | [] => ""
  | b :: rest =>
      String (hexDigit (byte_to_Z b / 16))
        (String (hexDigit (byte_to_Z b mod 16)) (toHex rest))
  end.

(** ** [src/App.tsx], the revision that sends the DLMS request *)

Module RevA.

(** OBIS code for Battery Voltage (0.b.96.6.3) *)
Definition obisCode : string := "000b600603ff".

(** [`C001${obisCode}`].  In the source [obisCode] is a local constant
    and this text is built for it alone; the name is a parameter here so
    that the expression can be read at the constant, [dlmsRequest
    obisCode]. *)
Definition dlmsRequest (obisCode : string) : string := "C001" +:+ obisCode.

(** [Buffer.from(dlmsRequest, "hex")], the frame that is written to the
    notify/write characteristic.  Neither the template literal nor the
    hex decoding can raise.  The source evaluates it at [obisCode]
    only. *)
Definition dlmsRequestFrame (obisCode : string) : completion Buffer :=
  Normal (Buffer_from_hex (dlmsRequest obisCode)).

(** The voltage parser of this revision: 32 bits at offset 0. *)
Definition parseBatteryVoltage (decodedValue : Buffer) : option float :=
  match fst (readUInt32BE 0 decodedValue) with
  | Normal batteryVoltageRaw =>
      Some (PrimFloat.div (number_of_Z batteryVoltageRaw) (number_of_Z 1000))
  | Throw _ => None
  end.

End RevA.

(** ** [Buffer.from(s, "base64")] and [toString("utf-8")] *)

(** The six bits of one base64 character; [-] and [_] are the URL-safe
    spellings the [buffer] package accepts as well. *)
Definition base64Value (c : ascii) : option Z :=
  let n := Z.of_N (N_of_ascii c) in
  if (65 <=? n) && (n <=? 90) then Some (n - 65)
  else if (97 <=? n) && (n <=? 122) then Some (n - 71)
  else if (48 <=? n) && (n <=? 57) then Some (n + 4)
  else if (n =? 43) || (n =? 45) then Some 62
  else if (n =? 47) || (n =? 95) then Some 63
  else None.

(** [base64clean]: the text before the first [=], without the characters
    that are not base64 characters, as six-bit values. *)
Fixpoint base64clean (s : string) : list Z :=
  match s with
  | EmptyString => []
  | String c rest =>
      if Ascii.eqb c "="%char then []
      else match base64Value c with
           | Some v => v :: base64clean rest
           | None => base64clean rest
           end
  end.

(** Four characters give three bytes, a tail of three gives two, a tail
    of two gives one and a tail of one gives none. *)
Fixpoint base64Bytes (sextets : list Z) : Buffer :=
  match sextets with
  | a :: b :: c :: d :: rest =>
      let tmp := a * 262144 + b * 4096 + c * 64 + d in
      byte_of_Z (tmp / 65536 mod 256) :: byte_of_Z (tmp / 256 mod 256)
        :: byte_of_Z (tmp mod 256) :: base64Bytes rest
  | [a; b; c] =>
      let tmp := a * 1024 + b * 16 + c / 4 in
      [byte_of_Z (tmp / 256 mod 256); byte_of_Z (tmp mod 256)]
  | [a; b] => [byte_of_Z ((a * 4 + b / 16) mod 256)]
  | _ => []
  end.

Definition Buffer_from_base64 (s : string) : Buffer :=
  base64Bytes (base64clean s).

(** [utf8Slice] of the [buffer] package, as code points.  The first byte
    fixes the length of the sequence (1 up to 0xBF, 2 up to 0xDF, 3 up to
    0xEF, else 4); the sequence is taken when all its bytes are there,
    the later ones are continuation bytes ([(b & 0xC0) === 0x80]) and the
    code point is neither overlong, nor a surrogate, nor above 0x10FFFF.
    Otherwise the code point is U+FFFD and only one byte is consumed. *)
Definition continuation (b : byte) : bool :=
  (128 <=? byte_to_Z b) && (byte_to_Z b <? 192).

Fixpoint utf8Slice (buf : Buffer) : list Z :=
  match buf with
  | [] => []
  | b0 :: rest =>
      let firstByte := byte_to_Z b0 in
      if firstByte <? 128 then firstByte :: utf8Slice rest
      else if firstByte <=? 191 then 65533 :: utf8Slice rest
      else if firstByte <=? 223 then
        match rest with
        | b1 :: rest1 =>
            let tempCodePoint := firstByte mod 32 * 64 + byte_to_Z b1 mod 64 in
            if continuation b1 && (127 <? tempCodePoint)
            then tempCodePoint :: utf8Slice rest1
            else 65533 :: utf8Slice rest
        | _ => 65533 :: utf8Slice rest
        end
      else if firstByte <=? 239 then
        match rest with
        | b1 :: b2 :: rest2 =>
            let tempCodePoint :=
              firstByte mod 16 * 4096 + byte_to_Z b1 mod 64 * 64 + byte_to_Z b2 mod 64 in
            if continuation b1 && continuation b2 && (2047 <? tempCodePoint)
               && ((tempCodePoint <? 55296) || (57343 <? tempCodePoint))
            then tempCodePoint :: utf8Slice rest2
            else 65533 :: utf8Slice rest
        | _ => 65533 :: utf8Slice rest
        end
      else
        match rest with
        | b1 :: b2 :: b3 :: rest3 =>
            let tempCodePoint :=
              firstByte mod 16 * 262144 + byte_to_Z b1 mod 64 * 4096
              + byte_to_Z b2 mod 64 * 64 + byte_to_Z b3 mod 64 in
            if continuation b1 && continuation b2 && continuation b3
               && (65535 <? tempCodePoint) && (tempCodePoint <? 1114112)
            then tempCodePoint :: utf8Slice rest3
            else 65533 :: utf8Slice rest
        | _ => 65533 :: utf8Slice rest
        end
  end.

(** The UTF-8 bytes of one code point. *)
Definition utf8Bytes (codePoint : Z) : list byte :=
  if codePoint <? 128 then [byte_of_Z codePoint]
  else if codePoint <? 2048 then
    [byte_of_Z (192 + codePoint / 64); byte_of_Z (128 + codePoint mod 64)]
  else if codePoint <? 65536 then
    [byte_of_Z (224 + codePoint / 4096); byte_of_Z (128 + codePoint / 64 mod 64);
     byte_of_Z (128 + codePoint mod 64)]
  else
    [byte_of_Z (240 + codePoint / 262144); byte_of_Z (128 + codePoint / 4096 mod 64);
     byte_of_Z (128 + codePoint / 64 mod 64); byte_of_Z (128 + codePoint mod 64)].

(** [buf.toString("utf-8")].  A JavaScript string is kept as the bytes of
    the UTF-8 encoding of its code points: a well-formed sequence of
    [buf] stays as it is, every byte that starts no well-formed sequence
    becomes U+FFFD (EF BF BD). *)
Definition toString_utf8 (buf : Buffer) : string :=
  string_of_list_byte (concat (map utf8Bytes (utf8Slice buf))).

(** Text whose bytes are all below 0x80. *)
Definition ascii_text (s : string) : bool :=
  forallb (fun b => byte_to_Z b <? 128) (list_byte_of_string s).

(** Text made of characters of the base64 alphabet and [=] only, which
    is what [characteristic.value] holds. *)
Definition base64_text (s : string) : bool :=
  forallb
    (fun c =>
       let n := Z.of_N (N_of_ascii c) in
       ((65 <=? n) && (n <=? 90)) || ((97 <=? n) && (n <=? 122))
       || ((48 <=? n) && (n <=? 57)) || (n =? 43) || (n =? 47) || (n =? 61))
    (list_ascii_of_string s).

(** ** Devices, the transport and the component state *)

Module Device.

(** The fields of a [react-native-ble-plx] device the code reads. *)
Record t := { id : string; name : option string }.

(** [device.name] as a condition: neither [null] nor the empty string. *)
Definition has_name (d : t) : bool :=
  match name d with
  | Some s => negb (String.eqb s "")
  | None => false
  end.

End Device.

(** A characteristic as returned by a read: [value] is base64 text or
    [null]. *)
Record Characteristic := { value : option string }.

(** The calls made on the BLE manager and on devices. *)
Inductive Op :=
| StartDeviceScan
| StopDeviceScan
| IsDeviceConnected (deviceId : string)
| IsConnected (d : Device.t)
| Connect (d : Device.t)
| RequestMTU (d : Device.t) (mtu : Z)
| DiscoverAllServicesAndCharacteristics (d : Device.t)
| ReadCharacteristicForService (d : Device.t) (serviceUUID characteristicUUID : string)
| CancelConnection (d : Device.t).

(** How the transport answers each awaited call: the promise resolves
    ([Normal]) or rejects ([Throw]).  No handler of the component issues
    the same call twice, so one answer per call is as general as an
    answer per moment. *)
Record Transport := {
  isDeviceConnected : string -> completion bool;
  isConnected : Device.t -> completion bool;
  connect : Device.t -> completion Device.t;
  requestMTU : Device.t -> Z -> completion Device.t;
  discoverAllServicesAndCharacteristics : Device.t -> completion Device.t;
  readCharacteristicForService : Device.t -> string -> string -> completion Characteristic;
  cancelConnection : Device.t -> completion Device.t
}.

Inductive DataValue :=
| DNumber (n : number)
| DString (s : string).

(** The four [useState] cells of [BLEInterface], the calls made so far
    and the console. *)
Record World := {
  isScanning : bool;
  devices : list Device.t;
  connectedDevice : option Device.t;
  deviceData : option (gmap string DataValue);
  trace : list Op;
  console : list LogEntry
}.

Definition setIsScanning (b : bool) (w : World) : World :=
  {| isScanning := b; devices := devices w; connectedDevice := connectedDevice w;
     deviceData := deviceData w; trace := trace w; console := console w |}.

(** [setDevices(f)] with an updater function. *)
Definition setDevices (f : list Device.t -> list Device.t) (w : World) : World :=
  {| isScanning := isScanning w; devices := f (devices w);
     connectedDevice := connectedDevice w; deviceData := deviceData w;
     trace := trace w; console := console w |}.

Definition setConnectedDevice (d : option Device.t) (w : World) : World :=
  {| isScanning := isScanning w; devices := devices w; connectedDevice := d;
     deviceData := deviceData w; trace := trace w; console := console w |}.

Definition setDeviceData (d : option (gmap string DataValue)) (w : World) : World :=
  {| isScanning := isScanning w; devices := devices w;
     connectedDevice := connectedDevice w; deviceData := d;
     trace := trace w; console := console w |}.

Definition issue (op : Op) (w : World) : World :=
  {| isScanning := isScanning w; devices := devices w;
     connectedDevice := connectedDevice w; deviceData := deviceData w;
     trace := trace w ++ [op]; console := console w |}.

Definition print (level : Level) (args : list JsValue) (w : World) : World :=
  {| isScanning := isScanning w; devices := devices w;
     connectedDevice := connectedDevice w; deviceData := deviceData w;
     trace := trace w; console := console w ++ [(level, args)] |}.

(** The component before anything happened. *)
Definition initial : World :=
  {| isScanning := false; devices := []; connectedDevice := None;
     deviceData := None; trace := []; console := [] |}.

(** [v || d] on a string or [null]: [d] when [v] is [null] or empty. *)
Definition or_else (v : option string) (d : string) : string :=
  match v with
  | Some "" | None => d
  | Some s => s
  end.

(** [device.name] printed: a string or [null]. *)
Definition name_of (d : Device.t) : JsValue :=
  match Device.name d with Some s => VStr s | None => VNull end.

(** ** Asynchronous handlers *)

(** An [async] function body: it runs on the world and completes normally
    or with a raised error; the world changes made before a [Throw]
    remain. *)
Definition Async (A : Type) : Type := World -> completion A * World.

Definition ret {A} (a : A) : Async A := fun w => (Normal a, w).

Definition bind {A B} (m : Async A) (k : A -> Async B) : Async B :=
  fun w =>
    match m w with
    | (Normal a, w') => k a w'
    | (Throw e, w') => (Throw e, w')
    end.

(** [try { m } catch (error) { handler }] *)
Definition try_catch {A} (m : Async A) (handler : JsError -> Async A) : Async A :=
  fun w =>
    match m w with
    | (Normal a, w') => (Normal a, w')
    | (Throw e, w') => handler e w'
    end.

(** A synchronous state change. *)
Definition act (f : World -> World) : Async unit := fun w => (Normal tt, f w).

(** [await] of a call on the transport: the call is recorded, then its
    answer is the result. *)
Definition await {A} (op : Op) (answer : completion A) : Async A :=
  fun w => (answer, issue op w).

(** An [await] during which an event is delivered: the call is
    recorded, the listener of the event runs, then the handler goes on
    with the answer. *)
Definition await_interrupted {A} (op : Op) (answer : completion A)
    (listener : World -> World) : Async A :=
  fun w => (answer, listener (issue op w)).

(** A pure computation that may raise (a buffer read). *)
Definition lift {A} (c : completion A) : Async A := fun w => (c, w).

Definition log (args : list JsValue) : Async unit := act (print LLog args).
Definition warn (args : list JsValue) : Async unit := act (print LWarn args).
Definition error (args : list JsValue) : Async unit := act (print LError args).

Declare Scope async_scope.
Delimit Scope async_scope with async.
Notation "x <- m ;; k" := (bind m (fun x => k))
  (at level 100, m at next level, right associativity) : async_scope.
Notation "m ;; k" := (bind m (fun _ : unit => k))
  (at level 100, right associativity) : async_scope.

Local Open Scope async_scope.

(** ** Scanning *)

(** What the scan listener is called with: [(error, device)]. *)
Record ScanEvent := { scan_error : option string; scan_device : option Device.t }.

(** [stopScan], the same text in every revision. *)
Definition stopScan (w : World) : World :=
  setIsScanning false (issue StopDeviceScan (print LLog [VStr "Stopping BLE scan..."] w)).

(** The devices a listener is told about with a usable name, in order of
    arrival. *)
Definition named_devices (events : list ScanEvent) : list Device.t :=
  omap (fun ev =>
          match scan_error ev, scan_device ev with
          | None, Some device => if Device.has_name device then Some device else None
          | _, _ => None
          end) events.

(** Keep the first device of every id. *)
Fixpoint first_seen (l : list Device.t) : list Device.t :=
  match l with
  | [] => []
  | d :: rest =>
      d :: filter (fun d' => Device.id d' <> Device.id d) (first_seen rest)
  end.

(** ** Teardown and the disconnect listener (the same text everywhere) *)

Section Teardown.

Variable T : Transport.

(** [disconnectDevice]; [connectedDevice] is the state cell as the
    closure captured it. *)
Definition disconnectDevice (connectedDevice : option Device.t) : Async unit :=
  match connectedDevice with
  | Some cd =>
      try_catch
        (log [VStr "Attempting to disconnect from:"; name_of cd] ;;
         connected <- await (IsConnected cd) (isConnected T cd) ;;
         (if connected : bool
          then (_ <- await (CancelConnection cd) (cancelConnection T cd) ;;
                log [VStr "Disconnected successfully"])
          else log [VStr "Device is not connected, skipping disconnection"]) ;;
         act (setConnectedDevice None) ;;
         act (setDeviceData None))
        (fun e => error [VStr "Disconnection error:"; VStr (message_of e)])
  | None => log [VStr "No device is currently connected to disconnect"]
  end.

End Teardown.

(** The listener the effect registers with
    [bleManager.onDeviceDisconnected(connectedDevice.id, ...)] while
    [connectedDevice] is set: a disconnection of [deviceId] reaches it
    only when it is the id it was registered for. *)
Definition onDeviceDisconnected (deviceId : string) (w : World) : World :=
  match connectedDevice w with
  | Some cd =>
      if decide (Device.id cd = deviceId)
      then setDeviceData None
             (setConnectedDevice None
                (print LWarn [VStr "Device "; name_of cd;
                              VStr " disconnected unexpectedly."] w))
      else w
  | None => w
  end.

(** The spec's connection states, as far as the component tells them
    apart: it is [Ready] while [connectedDevice] is set. *)
Inductive ConnectionState := Idle | Ready.

Definition connectionState (w : World) : ConnectionState :=
  match connectedDevice w with Some _ => Ready | None => Idle end.

(** ** [src/ble.tsx] *)

Module Ble.

(** [startScan] up to the call of [startDeviceScan]; the timer that calls
    [stopScan] after 20 s is left out. *)
Definition startScan (w : World) : World :=
  if isScanning w then w
  else issue StartDeviceScan
         (setDevices (fun _ => [])
            (setIsScanning true (print LLog [VStr "Starting BLE scan..."] w))).

(** The listener handed to [startDeviceScan]. *)
Definition scanCallback (w : World) (ev : ScanEvent) : World :=
  match scan_error ev with
  | Some message => stopScan (print LError [VStr "Scan error:"; VStr message] w)
  | None =>
      match scan_device ev with
      | Some device =>
          if Device.has_name device
          then setDevices
                 (fun prevDevices =>
                    match list_find (fun d => Device.id d = Device.id device) prevDevices with
                    | None => prevDevices ++ [device]
                    | Some _ => prevDevices
                    end)
                 (print LLog [VStr "Discovered device:"; name_of device;
                              VStr (Device.id device)] w)
          else w
      | None => w
      end
  end.

(** One scan window: [startScan], then the listener on every event. *)
Definition scanWindow (w : World) (events : list ScanEvent) : World :=
  foldl scanCallback (startScan w) events.

Section Handlers.

Variable T : Transport.

Definition connectToDevice (connectedDevice : option Device.t)
    (device : Device.t) : Async unit :=
  try_catch
    ((match connectedDevice with
      | Some cd =>
          log [VStr "Disconnecting from previously connected device: "; name_of cd] ;;
          disconnectDevice T connectedDevice
      | None => ret tt
      end) ;;
     log [VStr "Checking if device is already connected..."] ;;
     isConnected <- await (IsDeviceConnected (Device.id device))
                      (isDeviceConnected T (Device.id device)) ;;
     if isConnected : bool
     then
       log [VStr "Device is already connected. Skipping reconnection."] ;;
       act (setConnectedDevice (Some device))
     else
       log [VStr "Connecting to device:"; name_of device] ;;
       newConnectedDevice <- await (Connect device) (connect T device) ;;
       log [VStr "Connected to:"; name_of newConnectedDevice] ;;
       act (setConnectedDevice (Some newConnectedDevice)) ;;
       _ <- await (RequestMTU newConnectedDevice 250)
              (requestMTU T newConnectedDevice 250) ;;
       log [VStr "MTU size set to 250"] ;;
       _ <- await (DiscoverAllServicesAndCharacteristics newConnectedDevice)
              (discoverAllServicesAndCharacteristics T newConnectedDevice) ;;
       log [VStr "Services and characteristics discovered"] ;;
       batteryCharacteristic <-
         await (ReadCharacteristicForService newConnectedDevice "180F" "2A19")
           (readCharacteristicForService T newConnectedDevice "180F" "2A19") ;;
       let batteryLevel := parseInt16 (or_else (value batteryCharacteristic) "0") in
       log [VStr "Battery Level:";
            match batteryLevel with Int z => VInt z | NaN => VNaN end] ;;
       valveCharacteristic <-
         await (ReadCharacteristicForService newConnectedDevice
                  "005a02fe-bea5-46a0-c000-73c0d9b578fc"
                  "005a02fe-bea5-46a0-c101-73c0d9b578fc")
           (readCharacteristicForService T newConnectedDevice
              "005a02fe-bea5-46a0-c000-73c0d9b578fc"
              "005a02fe-bea5-46a0-c101-73c0d9b578fc") ;;
       log [VStr "Valve Status (Raw):";
            match value valveCharacteristic with Some s => VStr s | None => VNull end] ;;
       act (setDeviceData
              (Some (<["batteryLevel" := DNumber batteryLevel]>
                       (<["valveStatus" :=
                            DString (or_else (value valveCharacteristic) "Unknown")]> ∅)))))
    (fun e => error [VStr "Connection error:"; VStr (message_of e)]).

End Handlers.

End Ble.

(** ** [src/App.tsx], last revision *)

Module App.

(** [startScan] up to the call of [startDeviceScan]; the timer that calls
    [stopScan] after 20 s is left out. *)
Definition startScan (w : World) : World :=
  if isScanning w then w
  else issue StartDeviceScan
         (setDevices (fun _ => [])
            (setIsScanning true (print LLog [VStr "Starting BLE scan..."] w))).

(** The listener handed to [startDeviceScan]; [discoveredDeviceIds] is
    the [Set] of its closure, threaded with the world. *)
Definition scanCallback (st : gset string * World) (ev : ScanEvent)
    : gset string * World :=
  let '(discoveredDeviceIds, w) := st in
  match scan_error ev with
  | Some message =>
      (discoveredDeviceIds,
       stopScan (print LError [VStr "Scan error:"; VStr message] w))
  | None =>
      match scan_device ev with
      | Some device =>
          if Device.has_name device
             && negb (bool_decide (Device.id device ∈ discoveredDeviceIds))
          then ({[Device.id device]} ∪ discoveredDeviceIds,
                setDevices (fun prevDevices => prevDevices ++ [device])
                  (print LLog [VStr "Discovered device:"; name_of device;
                               VStr (Device.id device)] w))
          else st
      | None => st
      end
  end.

(** One scan window: [startScan] with its fresh [Set], then the listener
    on every event. *)
Definition scanWindow (w : World) (events : list ScanEvent) : World :=
  snd (foldl scanCallback (∅, startScan w) events).

Definition GAP : string := "1800".
Definition DEVICE_INFO : string := "180A".
Definition deviceName : string := "2A00".
Definition appearance : string := "2A01".
Definition hardwareRevisionString : string := "2A27".
Definition manufacturerNameString : string := "2A29".
Definition serialNumber : string := "2A25".
Definition firmwareVersion : string := "2A26".

(** The six reads of [fetchDeviceInformation], in the order they are
    awaited; the last one names the characteristic ["180F"]. *)
Definition reads : list (string * string) :=
  [(GAP, deviceName); (GAP, appearance); (DEVICE_INFO, serialNumber);
   (DEVICE_INFO, firmwareVersion); (DEVICE_INFO, hardwareRevisionString);
   (DEVICE_INFO, "180F")].

Section Handlers.

Variable T : Transport.

(** [connectedDevice] is the state cell as the closure captured it; the
    [const connectedDevice] of the [try] block is [connected]. *)
Definition connectToDevice (connectedDevice : option Device.t)
    (device : Device.t) : Async unit :=
  try_catch
    (log [VStr "Attempting to connect to device: "; name_of device;
          VStr " ("; VStr (Device.id device); VStr ")"] ;;
     connected <- await (Connect device) (connect T device) ;;
     log [VStr "Successfully connected to device: "; name_of connected;
          VStr " ("; VStr (Device.id connected); VStr ")"] ;;
     _ <- await (RequestMTU connected 250) (requestMTU T connected 250) ;;
     log [VStr "MTU size set to 250"] ;;
     _ <- await (DiscoverAllServicesAndCharacteristics connected)
            (discoverAllServicesAndCharacteristics T connected) ;;
     log [VStr "Services and characteristics discovered"] ;;
     act (setConnectedDevice (Some connected)))
    (fun e =>
       error [VStr "Error connecting to device: "; VStr (Device.id device);
              VStr (message_of e)] ;;
       match connectedDevice with
       | Some _ =>
           warn [VStr "Cleaning up partial connection..."] ;;
           disconnectDevice T connectedDevice
       | None => ret tt
       end).

Definition read (device : Device.t) (sc : string * string) : Async Characteristic :=
  await (ReadCharacteristicForService device (fst sc) (snd sc))
    (readCharacteristicForService T device (fst sc) (snd sc)).

(** [Buffer.from(c.value || "", "base64").toString("utf-8")] *)
Definition text_of (c : Characteristic) : string :=
  toString_utf8 (Buffer_from_base64 (or_else (value c) "")).

Definition fetchDeviceInformation (device : Device.t) : Async unit :=
  try_catch
    (log [VStr "Checking connection state..."] ;;
     isConnected <- await (IsConnected device) (isConnected T device) ;;
     (if isConnected : bool then ret tt
      else
        log [VStr "Attempting to reconnect..."] ;;
        _ <- await (Connect device) (connect T device) ;;
        _ <- await (DiscoverAllServicesAndCharacteristics device)
               (discoverAllServicesAndCharacteristics T device) ;;
        log [VStr "Reconnection successful"]) ;;
     deviceNameChar <- read device (GAP, deviceName) ;;
     appearanceChar <- read device (GAP, appearance) ;;
     serialNumberChar <- read device (DEVICE_INFO, serialNumber) ;;
     firmwareVersionChar <- read device (DEVICE_INFO, firmwareVersion) ;;
     hardwareRevisionStringChar <- read device (DEVICE_INFO, hardwareRevisionString) ;;
     manufacturerNameStringChar <- read device (DEVICE_INFO, "180F") ;;
     let deviceName := text_of deviceNameChar in
     appearance <-
       lift (fst (readUInt16LE 0
                    (Buffer_from_base64 (or_else (value appearanceChar) "")))) ;;
     let serialNumber := text_of serialNumberChar in
     let firmwareVersion := text_of firmwareVersionChar in
     let hardwareRevisionString := text_of hardwareRevisionStringChar in
     let manufacturer := text_of manufacturerNameStringChar in
     log [VStr "Successfully read characteristics"] ;;
     log [VStr "Device Name:"; VStr deviceName] ;;
     log [VStr "Appearance:"; VInt appearance] ;;
     log [VStr "Serial Number:"; VStr serialNumber] ;;
     log [VStr "Firmware Version:"; VStr firmwareVersion] ;;
     log [VStr "Hardware Revision:"; VStr hardwareRevisionString] ;;
     log [VStr "Manufacturer:"; VStr manufacturer])
    (fun e => error [VStr "Failed to fetch device information:"; VStr (message_of e)]).

End Handlers.

End App.

(** ** [src/App.tsx], the revision that stores two fields *)

Module RevB.

Section Handlers.

Variable T : Transport.

Definition fetchDeviceInformation (device : Device.t) : Async unit :=
  let serviceUUID := "180A" in
  try_catch
    (connected <- await (IsConnected device) (isConnected T device) ;;
     (if connected : bool then ret tt
      else
        warn [VStr "Device is not connected. Retrying..."] ;;
        _ <- await (Connect device) (connect T device) ;;
        _ <- await (DiscoverAllServicesAndCharacteristics device)
               (discoverAllServicesAndCharacteristics T device) ;;
        ret tt) ;;
     serialNumberChar <-
       await (ReadCharacteristicForService device serviceUUID "2A25")
         (readCharacteristicForService T device serviceUUID "2A25") ;;
     firmwareVersionChar <-
       await (ReadCharacteristicForService device serviceUUID "2A26")
         (readCharacteristicForService T device serviceUUID "2A26") ;;
     let serialNumber :=
       toString_utf8 (Buffer_from_base64 (or_else (value serialNumberChar) "")) in
     let firmwareVersion :=
       toString_utf8 (Buffer_from_base64 (or_else (value firmwareVersionChar) "")) in
     log [VStr "Serial Number:"; VStr serialNumber] ;;
     log [VStr "Firmware Version:"; VStr firmwareVersion] ;;
     act (setDeviceData
            (Some (<["serialNumber" := DString serialNumber]>
                     (<["firmwareVersion" := DString firmwareVersion]> ∅)))))
    (fun e => error [VStr "Failed to fetch device information:"; VStr (message_of e)]).

End Handlers.

End RevB.

Local Close Scope async_scope.

(** ** Classification of calls, and scenarios used in examples *)

(** The calls of the connect sequence proper: connect, MTU request,
    service discovery and characteristic reads. *)
Definition is_handshake (op : Op) : bool :=
  match op with
  | Connect _ | RequestMTU _ _ | DiscoverAllServicesAndCharacteristics _
  | ReadCharacteristicForService _ _ _ => true
  | _ => false
  end.

(** The call [readCharacteristicForService] for one (service,
    characteristic) pair. *)
Definition read_op (device : Device.t) (sc : string * string) : Op :=
  ReadCharacteristicForService device (fst sc) (snd sc).

Module Scenario.

Definition meter : Device.t :=
  {| Device.id := "AA:BB:CC:DD:EE:01"; Device.name := Some "Meter-1" |}.

Definition other : Device.t :=
  {| Device.id := "AA:BB:CC:DD:EE:02"; Device.name := Some "Meter-2" |}.

(** A transport on which every call succeeds; every characteristic reads
    as the bytes 41 42 ("AB"). *)
Definition healthy : Transport :=
  {| isDeviceConnected := fun _ => Normal false;
     isConnected := fun _ => Normal true;
     connect := fun d => Normal d;
     requestMTU := fun d _ => Normal d;
     discoverAllServicesAndCharacteristics := fun d => Normal d;
     readCharacteristicForService := fun _ _ _ => Normal {| value := Some "QUI=" |};
     cancelConnection := fun d => Normal d |}.

(** As [healthy], but the MTU request is rejected. *)
Definition mtu_rejected : Transport :=
  {| isDeviceConnected := isDeviceConnected healthy;
     isConnected := isConnected healthy;
     connect := connect healthy;
     requestMTU := fun _ _ => Throw (Error "MTU request failed");
     discoverAllServicesAndCharacteristics := discoverAllServicesAndCharacteristics healthy;
     readCharacteristicForService := readCharacteristicForService healthy;
     cancelConnection := cancelConnection healthy |}.

(** As [healthy], but cancelling the connection is rejected. *)
Definition cancel_rejected : Transport :=
  {| isDeviceConnected := isDeviceConnected healthy;
     isConnected := isConnected healthy;
     connect := connect healthy;
     requestMTU := requestMTU healthy;
     discoverAllServicesAndCharacteristics := discoverAllServicesAndCharacteristics healthy;
     readCharacteristicForService := readCharacteristicForService healthy;
     cancelConnection := fun _ => Throw (Error "Operation was cancelled") |}.

(** As [healthy], but the manager reports every device as connected. *)
Definition already_connected : Transport :=
  {| isDeviceConnected := fun _ => Normal true;
     isConnected := isConnected healthy;
     connect := connect healthy;
     requestMTU := requestMTU healthy;
     discoverAllServicesAndCharacteristics := discoverAllServicesAndCharacteristics healthy;
     readCharacteristicForService := readCharacteristicForService healthy;
     cancelConnection := cancelConnection healthy |}.

(** As [healthy], but the reads of the serial number (2A25), the hardware
    revision (2A27) and the characteristic 180F are rejected: three of
    the six reads of [fetchDeviceInformation] fail. *)
Definition three_reads_rejected : Transport :=
  {| isDeviceConnected := isDeviceConnected healthy;
     isConnected := isConnected healthy;
     connect := connect healthy;
     requestMTU := requestMTU healthy;
     discoverAllServicesAndCharacteristics := discoverAllServicesAndCharacteristics healthy;
     readCharacteristicForService := fun _ _ characteristicUUID =>
       if String.eqb characteristicUUID "2A25" || String.eqb characteristicUUID "2A27"
          || String.eqb characteristicUUID "180F"
       then Throw (Error "Characteristic read failed")
       else Normal {| value := Some "QUI=" |};
     cancelConnection := cancelConnection healthy |}.

(** The device dropped the link and is in range again: it reports not
    connected, and connecting, discovery and reads succeed. *)
Definition back_in_range : Transport :=
  {| isDeviceConnected := isDeviceConnected healthy;
     isConnected := fun _ => Normal false;
     connect := connect healthy;
     requestMTU := requestMTU healthy;
     discoverAllServicesAndCharacteristics := discoverAllServicesAndCharacteristics healthy;
     readCharacteristicForService := readCharacteristicForService healthy;
     cancelConnection := cancelConnection healthy |}.

(** A session in progress: [meter] is the connected device and two fields
    have been stored. *)
Definition session : World :=
  setDeviceData
    (Some (<["serialNumber" := DString "SN-0042"]>
             (<["firmwareVersion" := DString "1.2.0"]> ∅)))
    (setConnectedDevice (Some meter) initial).

End Scenario.

(** ** Parts of the connect handlers, named for the statements below *)

Section HandlerParts.

Variable T : Transport.

(** The catch block of [connectToDevice] in [src/App.tsx], after its
    [console.error]. *)
Definition App_cleanup (captured : option Device.t) : Async unit :=
  match captured with
  | Some _ =>
      bind (warn [VStr "Cleaning up partial connection..."])
        (fun _ => disconnectDevice T captured)
  | None => ret tt
  end.

(** What [connectToDevice] of [src/ble.tsx] does before it asks the
    manager: tear the previous session down, if the closure holds one. *)
Definition Ble_teardown_previous (captured : option Device.t) : Async unit :=
  match captured with
  | Some cd =>
      bind (log [VStr "Disconnecting from previously connected device: "; name_of cd])
        (fun _ => disconnectDevice T captured)
  | None => ret tt
  end.

End HandlerParts.

(** ** [buf.toString("base64")] *)

Definition base64Char (v : Z) : ascii :=
  default "A"%char
    (String.get (Z.to_nat v)
       "ABCDEFGHIJKLMNOPQRSTUVWXYZabcdefghijklmnopqrstuvwxyz0123456789+/").

(** Three bytes give four characters; a tail of two bytes gives three
    characters and one [=], a tail of one byte two characters and [==]. *)
Fixpoint toString_base64 (buf : Buffer) : string :=
  match buf with
  | b0 :: b1 :: b2 :: rest =>
      let num := byte_to_Z b0 * 65536 + byte_to_Z b1 * 256 + byte_to_Z b2 in
      String (base64Char (num / 262144 mod 64))
        (String (base64Char (num / 4096 mod 64))
           (String (base64Char (num / 64 mod 64))
              (String (base64Char (num mod 64)) (toString_base64 rest))))
  | [b0; b1] =>
      let tmp := byte_to_Z b0 * 256 + byte_to_Z b1 in
      String (base64Char (tmp / 1024))
        (String (base64Char (tmp / 16 mod 64))
           (String (base64Char (tmp * 4 mod 64)) "="))
  | [b0] =>
      let tmp := byte_to_Z b0 in
      String (base64Char (tmp / 4)) (String (base64Char (tmp * 16 mod 64)) "==")
  | [] => ""
  end.

(** ** Counting and projecting, for the statements below *)

Definition is_stop_scan (op : Op) : bool :=
  match op with StopDeviceScan => true | _ => false end.

Definition is_read (op : Op) : bool :=
  match op with ReadCharacteristicForService _ _ _ => true | _ => false end.

Definition is_connect (op : Op) : bool :=
  match op with Connect _ => true | _ => false end.

(** How often [stopDeviceScan] was called. *)
Definition stop_count (ops : list Op) : nat :=
  length (filter (fun op => is_stop_scan op = true) ops).

(** The errors a listener is told about. *)
Definition scan_errors (events : list ScanEvent) : list string :=
  omap scan_error events.

(** The four state cells of the component. *)
Definition cells (w : World)
    : bool * list Device.t * option Device.t * option (gmap string DataValue) :=
  (isScanning w, devices w, connectedDevice w, deviceData w).

(** A handler body that leaves the four state cells as they are, however
    it completes. *)
Definition keeps_cells {A} (m : Async A) : Prop :=
  forall w, cells (snd (m w)) = cells w.

(** ** The notification listener of the revision with the DLMS request *)

Module RevA_monitor.

(** The fields this revision keeps in [deviceData]; [batteryVoltage] is a
    number or [null]. *)
Inductive Field :=
| FText (s : string)
| FNumber (z : Z)
| FVoltage (v : option float).

(** What this listener prints. *)
Inductive Shown :=
| SStr (s : string)
| SBuf (b : Buffer)
| SVoltage (v : option float).

(** The cell [deviceData] and the console, the two things the listener
    writes. *)
Record State := {
  data : option (gmap string Field);
  out : list (Level * list Shown)
}.

(** [parseBatteryVoltage] of this revision with what it prints. *)
Definition parseBatteryVoltage_run (decodedValue : Buffer)
    : option float * list (Level * list Shown) :=
  match fst (readUInt32BE 0 decodedValue) with
  | Normal batteryVoltageRaw =>
      (Some (PrimFloat.div (number_of_Z batteryVoltageRaw) (number_of_Z 1000)), [])
  | Throw e =>
      (None, [(LError, [SStr "Failed to parse battery voltage:"; SStr (message_of e)])])
  end.

(** The listener handed to [monitorCharacteristicForDevice], called with
    [(error, characteristic)]; [value] is [characteristic.value], taken
    to be present when there is no error.
    [setDeviceData(prevData => ({...prevData, batteryVoltage}))] spreads
    [null] as the empty object. *)
Definition onNotification (error : option string) (value : string) (st : State)
    : State :=
  match error with
  | Some message =>
      {| data := data st;
         out := out st ++
                  [(LError, [SStr "Error receiving battery voltage:"; SStr message])] |}
  | None =>
      let decodedValue := Buffer_from_base64 value in
      let '(batteryVoltage, printed) := parseBatteryVoltage_run decodedValue in
      {| data := Some (<["batteryVoltage" := FVoltage batteryVoltage]>
                         (default ∅ (data st)));
         out := out st ++
                  [(LLog, [SStr "Decoded value for battery voltage:"; SBuf decodedValue])]
                  ++ printed
                  ++ [(LLog, [SStr "Battery Voltage:"; SVoltage batteryVoltage])] |}
  end.

End RevA_monitor.

(** * Properties *)

(** ** Facts about the 32-bit operators *)

Module Int32Facts.
Import Int32.

Lemma ToInt32_small z : - 2 ^ 31 <= z < 2 ^ 31 -> ToInt32 z = z.
Proof.
  intros Hz. unfold ToInt32.
  rewrite Z.mod_small by lia. lia.
Qed.

Lemma land_shiftl_low a b n :
  0 <= n -> 0 <= b < 2 ^ n -> Z.land (Z.shiftl a n) b = 0.
Proof.
  intros Hn Hb. apply Z.bits_inj'. intros k Hk.
  rewrite Z.land_spec, Z.bits_0.
  destruct (Z.lt_ge_cases k n) as [Hlt | Hge].
  - rewrite Z.shiftl_spec_low by lia. reflexivity.
  - replace b with (b mod 2 ^ n) by (apply Z.mod_small; lia).
    rewrite Z.mod_pow2_bits_high by lia.
    apply andb_false_r.
Qed.

Lemma lor_shiftl_add a b n :
  0 <= n -> 0 <= b < 2 ^ n -> Z.lor (Z.shiftl a n) b = a * 2 ^ n + b.
Proof.
  intros Hn Hb.
  rewrite <- Z.lxor_lor by (apply land_shiftl_low; lia).
  rewrite <- Z.add_nocarry_lxor by (apply land_shiftl_low; lia).
  rewrite Z.shiftl_mul_pow2 by lia. reflexivity.
Qed.

Lemma shl_small a n :
  0 <= n < 32 -> 0 <= a -> a * 2 ^ n < 2 ^ 31 -> shl a n = a * 2 ^ n.
Proof.
  intros Hn Ha Hlt. unfold shl.
  assert (1 <= 2 ^ n) by (apply Z.pow_le_mono_r with (b := 0); lia).
  rewrite (Z.mod_small n) by lia.
  rewrite (ToInt32_small a) by nia.
  rewrite Z.shiftl_mul_pow2 by lia.
  apply ToInt32_small. nia.
Qed.

End Int32Facts.

(** ** Facts about the bounds-checked reads *)

Section BufferReads.

Implicit Types (buf : Buffer) (off : nat).

Lemma byte_to_Z_range b : 0 <= byte_to_Z b < 256.
Proof.
  unfold byte_to_Z. pose proof (Byte.to_N_bounded b). lia.
Qed.

Lemma checkOffset_ok buf off (ext : Z) :
  Z.of_nat off + ext <= Z.of_nat (length buf) ->
  checkOffset (Z.of_nat off) ext buf = (Normal tt, []).
Proof.
  intros H. unfold checkOffset, bbind, blength, bret.
  destruct (Z.ltb_spec (Z.of_nat (length buf)) (Z.of_nat off + ext)) as [Hlt | Hge].
  - lia.
  - reflexivity.
Qed.

Lemma checkOffset_short buf off (ext : Z) :
  Z.of_nat (length buf) < Z.of_nat off + ext ->
  checkOffset (Z.of_nat off) ext buf =
    (Throw (RangeError "Trying to access beyond buffer length"), []).
Proof.
  intros H. unfold checkOffset, bbind, blength, bthrow.
  destruct (Z.ltb_spec (Z.of_nat (length buf)) (Z.of_nat off + ext)) as [Hlt | Hge].
  - reflexivity.
  - lia.
Qed.

Lemma elem_in_bounds buf off b :
  buf !! off = Some b ->
  elem (Z.of_nat off) buf = (Normal (byte_to_Z b), [off]).
Proof.
  intros H. unfold elem. rewrite Nat2Z.id, H. reflexivity.
Qed.

Lemma field_cons buf off width b :
  buf !! off = Some b ->
  field off (S width) buf = b :: field (S off) width buf.
Proof.
  intros H. unfold field. rewrite (drop_S _ _ _ H). reflexivity.
Qed.

Lemma field_0 buf off : field off 0 buf = [].
Proof. unfold field. apply take_0. Qed.

End BufferReads.

Section ReadSpecs.

Import Int32 Int32Facts.
Implicit Types (buf : Buffer) (off : nat).

(** Evaluate the closed powers of two of a goal before arithmetic. *)
Ltac eval_pow2 :=
  repeat match goal with
         | |- context [2 ^ ?n] =>
             let v := eval vm_compute in (2 ^ n) in change (2 ^ n) with v
         end.

Ltac byte_lia := eval_pow2; lia.

Lemma or_shl8 hi lo :
  0 <= hi < 256 -> 0 <= lo < 256 ->
  Int32.or (Int32.shl hi 8) lo = hi * 256 + lo.
Proof.
  intros Hhi Hlo. rewrite shl_small by byte_lia.
  unfold Int32.or. rewrite !ToInt32_small by byte_lia.
  rewrite <- Z.shiftl_mul_pow2 by lia.
  rewrite lor_shiftl_add by byte_lia. byte_lia.
Qed.

Lemma or_shl16_shl8 b1 b2 b3 :
  0 <= b1 < 256 -> 0 <= b2 < 256 -> 0 <= b3 < 256 ->
  Int32.or (Int32.or (Int32.shl b1 16) (Int32.shl b2 8)) b3 =
    b1 * 65536 + b2 * 256 + b3.
Proof.
  intros H1 H2 H3. rewrite !shl_small by byte_lia.
  assert (Hin : Int32.or (b1 * 2 ^ 16) (b2 * 2 ^ 8) = Z.shiftl (b1 * 2 ^ 8 + b2) 8).
  { unfold Int32.or. rewrite !ToInt32_small by byte_lia.
    rewrite <- (Z.shiftl_mul_pow2 b1 16) by lia.
    rewrite lor_shiftl_add by byte_lia.
    rewrite Z.shiftl_mul_pow2 by lia. byte_lia. }
  rewrite Hin. unfold Int32.or.
  rewrite (ToInt32_small b3) by byte_lia.
  rewrite ToInt32_small by (rewrite Z.shiftl_mul_pow2 by lia; byte_lia).
  rewrite lor_shiftl_add by byte_lia. byte_lia.
Qed.

(** Inside the buffer a 16-bit read returns the big-endian value of the
    two bytes at [off] and touches exactly these two. *)
Lemma readUInt16BE_in_bounds buf off :
  (off + 2 <= length buf)%nat ->
  readUInt16BE (Z.of_nat off) buf =
    (Normal (be_value (field off 2 buf)), [off; S off]).
Proof.
  intros Hlen.
  destruct (lookup_lt_is_Some_2 buf off) as [hi Hhi]; [lia |].
  destruct (lookup_lt_is_Some_2 buf (S off)) as [lo Hlo]; [lia |].
  unfold readUInt16BE, bbind.
  rewrite (checkOffset_ok buf off 2) by lia.
  rewrite (elem_in_bounds _ _ _ Hhi).
  replace (Z.of_nat off + 1) with (Z.of_nat (S off)) by lia.
  rewrite (elem_in_bounds _ _ _ Hlo). cbn [bret app].
  rewrite (field_cons _ _ _ _ Hhi), (field_cons _ _ _ _ Hlo), field_0.
  pose proof (byte_to_Z_range hi). pose proof (byte_to_Z_range lo).
  rewrite or_shl8 by lia. cbn [be_value length]. do 2 f_equal. lia.
Qed.

Lemma readUInt16BE_short buf off :
  (length buf < off + 2)%nat ->
  readUInt16BE (Z.of_nat off) buf =
    (Throw (RangeError "Trying to access beyond buffer length"), []).
Proof.
  intros Hlen. unfold readUInt16BE, bbind.
  rewrite (checkOffset_short buf off 2) by lia. reflexivity.
Qed.

Lemma readUInt32BE_in_bounds buf off :
  (off + 4 <= length buf)%nat ->
  readUInt32BE (Z.of_nat off) buf =
    (Normal (be_value (field off 4 buf)), [off; S off; S (S off); S (S (S off))]).
Proof.
  intros Hlen.
  destruct (lookup_lt_is_Some_2 buf off) as [b0 H0]; [lia |].
  destruct (lookup_lt_is_Some_2 buf (S off)) as [b1 H1]; [lia |].
  destruct (lookup_lt_is_Some_2 buf (S (S off))) as [b2 H2]; [lia |].
  destruct (lookup_lt_is_Some_2 buf (S (S (S off)))) as [b3 H3]; [lia |].
  unfold readUInt32BE, bbind.
  rewrite (checkOffset_ok buf off 4) by lia.
  rewrite (elem_in_bounds _ _ _ H0).
  replace (Z.of_nat off + 1) with (Z.of_nat (S off)) by lia.
  replace (Z.of_nat off + 2) with (Z.of_nat (S (S off))) by lia.
  replace (Z.of_nat off + 3) with (Z.of_nat (S (S (S off)))) by lia.
  rewrite (elem_in_bounds _ _ _ H1), (elem_in_bounds _ _ _ H2),
    (elem_in_bounds _ _ _ H3). cbn [bret app].
  rewrite (field_cons _ _ _ _ H0), (field_cons _ _ _ _ H1),
    (field_cons _ _ _ _ H2), (field_cons _ _ _ _ H3), field_0.
  pose proof (byte_to_Z_range b0). pose proof (byte_to_Z_range b1).
  pose proof (byte_to_Z_range b2). pose proof (byte_to_Z_range b3).
  rewrite or_shl16_shl8 by lia. cbn [be_value length]. do 2 f_equal. lia.
Qed.

Lemma readUInt32BE_short buf off :
  (length buf < off + 4)%nat ->
  readUInt32BE (Z.of_nat off) buf =
    (Throw (RangeError "Trying to access beyond buffer length"), []).
Proof.
  intros Hlen. unfold readUInt32BE, bbind.
  rewrite (checkOffset_short buf off 4) by lia. reflexivity.
Qed.

Lemma readUInt16LE_in_bounds buf off :
  (off + 2 <= length buf)%nat ->
  snd (readUInt16LE (Z.of_nat off) buf) = [off; S off].
Proof.
  intros Hlen.
  destruct (lookup_lt_is_Some_2 buf off) as [lo Hlo]; [lia |].
  destruct (lookup_lt_is_Some_2 buf (S off)) as [hi Hhi]; [lia |].
  unfold readUInt16LE, bbind.
  rewrite (checkOffset_ok buf off 2) by lia.
  rewrite (elem_in_bounds _ _ _ Hlo).
  replace (Z.of_nat off + 1) with (Z.of_nat (S off)) by lia.
  rewrite (elem_in_bounds _ _ _ Hhi). reflexivity.
Qed.

Lemma readUInt16LE_short buf off :
  (length buf < off + 2)%nat ->
  readUInt16LE (Z.of_nat off) buf =
    (Throw (RangeError "Trying to access beyond buffer length"), []).
Proof.
  intros Hlen. unfold readUInt16LE, bbind.
  rewrite (checkOffset_short buf off 2) by lia. reflexivity.
Qed.

(** No read touches an index outside the buffer, whatever the offset. *)
Lemma reads_in_bounds buf off :
  Forall (fun i => (i < length buf)%nat) (snd (readUInt16BE (Z.of_nat off) buf)) /\
  Forall (fun i => (i < length buf)%nat) (snd (readUInt16LE (Z.of_nat off) buf)) /\
  Forall (fun i => (i < length buf)%nat) (snd (readUInt32BE (Z.of_nat off) buf)).
Proof.
  split; [| split].
  - destruct (le_lt_dec (off + 2) (length buf)) as [Hge | Hlt].
    + rewrite readUInt16BE_in_bounds by exact Hge. repeat constructor; lia.
    + rewrite readUInt16BE_short by exact Hlt. constructor.
  - destruct (le_lt_dec (off + 2) (length buf)) as [Hge | Hlt].
    + rewrite readUInt16LE_in_bounds by exact Hge. repeat constructor; lia.
    + rewrite readUInt16LE_short by exact Hlt. constructor.
  - destruct (le_lt_dec (off + 4) (length buf)) as [Hge | Hlt].
    + rewrite readUInt32BE_in_bounds by exact Hge. repeat constructor; lia.
    + rewrite readUInt32BE_short by exact Hlt. constructor.
Qed.

End ReadSpecs.

(** ** The response parsers *)

Section Parsers.

Import App_codec.
Implicit Types (frame : Buffer).

Lemma parseBatteryVoltage_run_long frame :
  (5 <= length frame)%nat ->
  parseBatteryVoltage_run frame =
    {| returned := Some (PrimFloat.div (number_of_Z (be_value (field 3 2 frame)))
                                       (number_of_Z 1000));
       touched := [3; 4]%nat;
       printed := [(LLog, [VStr "batteryVoltageRaw";
                           VInt (be_value (field 3 2 frame))])] |}.
Proof.
  intros Hlen. unfold parseBatteryVoltage_run.
  change 3 with (Z.of_nat 3).
  rewrite readUInt16BE_in_bounds by lia. reflexivity.
Qed.

Lemma parseBatteryVoltage_run_short frame :
  (length frame < 5)%nat ->
  parseBatteryVoltage_run frame =
    {| returned := None;
       touched := [];
       printed := [(LError, [VStr "Failed to parse battery voltage:";
                             VStr "Trying to access beyond buffer length"])] |}.
Proof.
  intros Hlen. unfold parseBatteryVoltage_run.
  change 3 with (Z.of_nat 3).
  rewrite readUInt16BE_short by lia. reflexivity.
Qed.

Lemma parseMeterReading_run_long frame :
  (7 <= length frame)%nat ->
  parseMeterReading_run frame =
    {| returned := Some (be_value (field 3 4 frame));
       touched := [3; 4; 5; 6]%nat;
       printed := [(LLog, [VStr "MeterReadingRaw: ";
                           VInt (be_value (field 3 4 frame))])] |}.
Proof.
  intros Hlen. unfold parseMeterReading_run.
  change 3 with (Z.of_nat 3).
  rewrite readUInt32BE_in_bounds by lia. reflexivity.
Qed.

Lemma parseMeterReading_run_short frame :
  (length frame < 7)%nat ->
  parseMeterReading_run frame =
    {| returned := None;
       touched := [];
       printed := [(LError, [VStr "Failed to parse meter reading:";
                             VStr "Trying to access beyond buffer length"])] |}.
Proof.
  intros Hlen. unfold parseMeterReading_run.
  change 3 with (Z.of_nat 3).
  rewrite readUInt32BE_short by lia. reflexivity.
Qed.

(** C1, the claim as stated fails on the voltage parser that is called,
    the one of the first revision: on a 5-byte frame whose bytes 3 and 4
    are 0x0B and 0xB8 it returns 11 / 1000 (the 32-bit value of the bytes
    0 to 3), not 3.0. *)
Lemma first_revision_parser_reads_offset_0 :
  (5 <= length [x00; x00; x00; x0b; xb8])%nat /\
  RevA.parseBatteryVoltage [x00; x00; x00; x0b; xb8] =
    Some (PrimFloat.div (number_of_Z 11) (number_of_Z 1000)) /\
  RevA.parseBatteryVoltage [x00; x00; x00; x0b; xb8] <> Some 3%float.
Proof.
  split; [cbn; lia |]. split; [reflexivity |].
  intros H.
  apply (f_equal (fun r => match r with
                           | Some v => PrimFloat.ltb v 1%float
                           | None => false
                           end)) in H.
  vm_compute in H. discriminate H.
Qed.

(** C1, amended.  With the parser of the last revision, a frame of at
    least 5 bytes yields the big-endian 16-bit value of the bytes at
    offsets 3 and 4 divided by 1000 (a binary64 division), and these two
    bytes only are touched; a frame whose bytes 3 and 4 are 0x0B and 0xB8
    yields 3.0.  With the parser of the first revision, the one the
    notification listener calls, a frame of at least 4 bytes yields the
    big-endian 32-bit value of the bytes at offsets 0 to 3 divided by
    1000. *)
Theorem parseBatteryVoltage_decodes :
  (forall frame, (5 <= length frame)%nat ->
     parseBatteryVoltage frame =
       Some (PrimFloat.div (number_of_Z (be_value (field 3 2 frame)))
                           (number_of_Z 1000)) /\
     touched (parseBatteryVoltage_run frame) = [3; 4]%nat) /\
  (forall b0 b1 b2 : byte,
     parseBatteryVoltage [b0; b1; b2; x0b; xb8] = Some 3%float) /\
  (forall frame, (4 <= length frame)%nat ->
     RevA.parseBatteryVoltage frame =
       Some (PrimFloat.div (number_of_Z (be_value (field 0 4 frame)))
                           (number_of_Z 1000))).
Proof.
  split; [| split].
  - intros frame Hlen. unfold parseBatteryVoltage.
    rewrite parseBatteryVoltage_run_long by exact Hlen. split; reflexivity.
  - intros b0 b1 b2. unfold parseBatteryVoltage.
    rewrite parseBatteryVoltage_run_long by (cbn; lia). reflexivity.
  - intros frame Hlen. unfold RevA.parseBatteryVoltage.
    change 0 with (Z.of_nat 0).
    rewrite readUInt32BE_in_bounds by lia. reflexivity.
Qed.

Lemma parseBatteryVoltage_decodes_witness :
  (5 <= length [x01; x02; x03; x0d; xac; x00])%nat /\
  parseBatteryVoltage [x01; x02; x03; x0d; xac; x00] = Some 3.5%float /\
  (4 <= length [x00; x00; x0d; xac; x00; x00])%nat /\
  RevA.parseBatteryVoltage [x00; x00; x0d; xac; x00; x00] = Some 3.5%float.
Proof.
  split; [cbn; lia |]. split; [| split; [cbn; lia |]].
  - refine (eq_trans (proj1 (proj1 parseBatteryVoltage_decodes _ _)) _);
      [cbn; lia | reflexivity].
  - refine (eq_trans (proj2 (proj2 parseBatteryVoltage_decodes) _ _) _);
      [cbn; lia | reflexivity].
Defined.

(** C3.  A frame of at least 7 bytes parsed as a meter reading yields the
    big-endian 32-bit value of the bytes at offsets 3 to 6, unscaled, and
    touches these four bytes only; a frame whose bytes 3 to 6 are
    00 00 01 00 yields 256. *)
Theorem parseMeterReading_decodes :
  (forall frame, (7 <= length frame)%nat ->
     parseMeterReading frame = Some (be_value (field 3 4 frame)) /\
     touched (parseMeterReading_run frame) = [3; 4; 5; 6]%nat) /\
  (forall b0 b1 b2 : byte,
     parseMeterReading [b0; b1; b2; x00; x00; x01; x00] = Some 256).
Proof.
  split.
  - intros frame Hlen. unfold parseMeterReading.
    rewrite parseMeterReading_run_long by exact Hlen. split; reflexivity.
  - intros b0 b1 b2. unfold parseMeterReading.
    rewrite parseMeterReading_run_long by (cbn; lia). reflexivity.
Qed.

Lemma parseMeterReading_decodes_witness :
  (7 <= length [x01; x02; x03; x12; x34; x56; x78; xff])%nat /\
  parseMeterReading [x01; x02; x03; x12; x34; x56; x78; xff] = Some 305419896.
Proof.
  split; [cbn; lia |].
  refine (eq_trans (proj1 (proj1 parseMeterReading_decodes _ _)) _);
    [cbn; lia | reflexivity].
Defined.

(** C7.  A frame shorter than 3 + 2 bytes makes the 16-bit read raise the
    range error of the bounds check, which [parseBatteryVoltage] reports
    as [null]; a frame shorter than 3 + 4 bytes does the same to
    [parseMeterReading]; in both cases no byte is touched.  On every
    frame, short or not, each index a parser touches lies inside the
    frame. *)
Theorem parsers_reject_truncated_frames frame :
  ((length frame < 3 + 2)%nat ->
     fst (readUInt16BE 3 frame) =
       Throw (RangeError "Trying to access beyond buffer length") /\
     parseBatteryVoltage frame = None /\
     touched (parseBatteryVoltage_run frame) = []) /\
  ((length frame < 3 + 4)%nat ->
     fst (readUInt32BE 3 frame) =
       Throw (RangeError "Trying to access beyond buffer length") /\
     parseMeterReading frame = None /\
     touched (parseMeterReading_run frame) = []) /\
  Forall (fun i => (i < length frame)%nat) (touched (parseBatteryVoltage_run frame)) /\
  Forall (fun i => (i < length frame)%nat) (touched (parseMeterReading_run frame)).
Proof.
  repeat split.
  - change 3 with (Z.of_nat 3). rewrite readUInt16BE_short by lia. reflexivity.
  - unfold parseBatteryVoltage.
    rewrite parseBatteryVoltage_run_short by lia. reflexivity.
  - rewrite parseBatteryVoltage_run_short by lia. reflexivity.
  - change 3 with (Z.of_nat 3). rewrite readUInt32BE_short by lia. reflexivity.
  - unfold parseMeterReading.
    rewrite parseMeterReading_run_short by lia. reflexivity.
  - rewrite parseMeterReading_run_short by lia. reflexivity.
  - destruct (le_lt_dec 5 (length frame)) as [Hge | Hlt].
    + rewrite parseBatteryVoltage_run_long by exact Hge.
      cbn [touched]. repeat constructor; lia.
    + rewrite parseBatteryVoltage_run_short by exact Hlt. constructor.
  - destruct (le_lt_dec 7 (length frame)) as [Hge | Hlt].
    + rewrite parseMeterReading_run_long by exact Hge.
      cbn [touched]. repeat constructor; lia.
    + rewrite parseMeterReading_run_short by exact Hlt. constructor.
Qed.

Lemma parsers_reject_truncated_frames_witness :
  parseBatteryVoltage [x00; x01; x02; x0b] = None /\
  parseMeterReading [x00; x01; x02; x00; x00; x01] = None.
Proof.
  split.
  - refine (proj1 (proj2 (proj1 (parsers_reject_truncated_frames _) _))).
    cbn; lia.
  - refine (proj1 (proj2 (proj1 (proj2 (parsers_reject_truncated_frames _)) _))).
    cbn; lia.
Defined.

(** The earlier revision of the voltage parser reads 32 bits at offset 0:
    on a frame of C1 it returns 11 / 1000, and it returns 3.0 when the
    bytes 0x0B 0xB8 sit at offsets 2 and 3. *)
Lemma RevA_parseBatteryVoltage_offset0 :
  RevA.parseBatteryVoltage [x00; x00; x00; x0b; xb8] =
    Some (PrimFloat.div (number_of_Z 11) (number_of_Z 1000)) /\
  RevA.parseBatteryVoltage [x00; x00; x0b; xb8; x00] = Some 3%float.
Proof. split; reflexivity. Qed.

End Parsers.

(** ** The Get-Request frame *)

Section GetRequest.

Import RevA.

Lemma Buffer_from_hex_pair (b : byte) (rest : string) :
  Buffer_from_hex
    (String (hexDigit (byte_to_Z b / 16))
       (String (hexDigit (byte_to_Z b mod 16)) rest)) =
  b :: Buffer_from_hex rest.
Proof. destruct b; reflexivity. Qed.

(** Decoding the hex text of a byte sequence gives the sequence back. *)
Lemma Buffer_from_hex_toHex (bytes : list byte) :
  Buffer_from_hex (toHex bytes) = bytes.
Proof.
  induction bytes as [| b rest IH]; [reflexivity |].
  cbn [toHex]. rewrite Buffer_from_hex_pair, IH. reflexivity.
Qed.

Lemma length_toHex (bytes : list byte) :
  String.length (toHex bytes) = (2 * length bytes)%nat.
Proof.
  induction bytes as [| b rest IH]; [reflexivity |].
  cbn [toHex String.length length]. rewrite IH. lia.
Qed.

Lemma dlmsRequestFrame_toHex (obis : list byte) :
  dlmsRequestFrame (toHex obis) = Normal (xc0 :: x01 :: obis).
Proof.
  unfold dlmsRequestFrame, dlmsRequest.
  change ("C001" +:+ toHex obis)
    with (String "C" (String "0" (String "0" (String "1" (toHex obis))))).
  change (Buffer_from_hex (String "C" (String "0" (String "0" (String "1" (toHex obis))))))
    with (xc0 :: x01 :: Buffer_from_hex (toHex obis)).
  rewrite Buffer_from_hex_toHex. reflexivity.
Qed.

(** The request frame.  The source builds it for the constant
    [obisCode], the 6 bytes 00 0B 60 06 03 FF, and for no other code: it
    is C0 01 00 0B 60 06 03 FF, the two bytes C0 01 followed by the bytes
    of the code.  Read at the hex text of any byte sequence, the same
    expression gives C0 01 followed by that sequence, so 8 bytes whose
    last 6 are the code when the code has 6 bytes. *)
Theorem dlmsRequestFrame_layout :
  (forall obis : list byte,
     dlmsRequestFrame (toHex obis) = Normal ([xc0; x01] ++ obis)) /\
  (forall obis : list byte, length obis = 6%nat ->
     exists frame,
       dlmsRequestFrame (toHex obis) = Normal frame /\
       length frame = 8%nat /\ take 2 frame = [xc0; x01] /\ drop 2 frame = obis) /\
  dlmsRequestFrame obisCode = Normal [xc0; x01; x00; x0b; x60; x06; x03; xff].
Proof.
  split; [exact dlmsRequestFrame_toHex |]. split; [| reflexivity].
  intros obis Hlen. exists (xc0 :: x01 :: obis).
  rewrite dlmsRequestFrame_toHex. cbn [length take drop]. rewrite Hlen.
  repeat split; reflexivity.
Qed.

Lemma dlmsRequestFrame_layout_witness :
  exists frame,
    dlmsRequestFrame (toHex [x01; x00; x01; x08; x00; xff]) = Normal frame /\
    length frame = 8%nat /\ take 2 frame = [xc0; x01] /\
    drop 2 frame = [x01; x00; x01; x08; x00; xff].
Proof.
  apply (proj1 (proj2 dlmsRequestFrame_layout)). reflexivity.
Defined.

End GetRequest.

(** ** The scan aggregator *)

Section ScanAggregator.

Implicit Types (l : list Device.t) (d : Device.t) (w : World)
  (events : list ScanEvent) (seen : gset string).

Local Abbreviation ids l := (Device.id <$> l).

Lemma first_seen_sublist l : first_seen l `sublist_of` l.
Proof.
  induction l as [| d rest IH]; [constructor |].
  cbn [first_seen]. apply sublist_skip.
  etransitivity; [apply sublist_filter | exact IH].
Qed.

Lemma first_seen_ids l i : i ∈ ids (first_seen l) <-> i ∈ ids l.
Proof.
  induction l as [| d rest IH]; [reflexivity |].
  cbn [first_seen]. rewrite !fmap_cons, !elem_of_cons, <- IH.
  rewrite !list_elem_of_fmap. split.
  - intros [-> | (x & -> & Hx)]; [by left |].
    apply list_elem_of_filter in Hx as [_ Hx]. right. by exists x.
  - intros [-> | (x & -> & Hx)]; [by left |].
    destruct (decide (Device.id x = Device.id d)) as [-> | Hne]; [by left |].
    right. exists x. split; [done |]. by apply list_elem_of_filter.
Qed.

Lemma first_seen_ids_NoDup l : NoDup (ids (first_seen l)).
Proof.
  induction l as [| d rest IH]; [constructor |].
  cbn [first_seen]. rewrite fmap_cons. constructor.
  - intros (x & Hid & Hx)%list_elem_of_fmap.
    apply list_elem_of_filter in Hx as [Hne _]. by apply Hne.
  - eapply sublist_NoDup; [exact IH |].
    apply fmap_sublist, sublist_filter.
Qed.

(** An entry of [first_seen l] is the first device of [l] with its id. *)
Lemma first_seen_is_first l d :
  d ∈ first_seen l <->
  exists l1 l2, l = l1 ++ d :: l2 /\ Device.id d ∉ ids l1.
Proof.
  induction l as [| x rest IH].
  - split; [intros H; inversion H |].
    intros (l1 & l2 & Heq & _). by destruct l1.
  - cbn [first_seen]. rewrite elem_of_cons, list_elem_of_filter, IH. split.
    + intros [-> | (Hne & l1 & l2 & -> & Hfresh)].
      * exists [], rest. split; [done |]. rewrite fmap_nil. apply not_elem_of_nil.
      * exists (x :: l1), l2. split; [done |].
        rewrite fmap_cons, not_elem_of_cons. done.
    + intros (l1 & l2 & Heq & Hfresh). destruct l1 as [| y l1].
      * left. by injection Heq as ->.
      * injection Heq as -> ->. rewrite fmap_cons, not_elem_of_cons in Hfresh.
        destruct Hfresh as [Hne Hfresh]. right.
        split; [done |]. by exists l1, l2.
Qed.

Lemma named_devices_spec events d :
  d ∈ named_devices events <->
  exists ev, ev ∈ events /\ scan_error ev = None /\ scan_device ev = Some d /\
             Device.has_name d = true.
Proof.
  unfold named_devices. rewrite list_elem_of_omap. split.
  - intros (ev & Hev & Hd). exists ev. split; [done |].
    destruct (scan_error ev); [done |].
    destruct (scan_device ev) as [d' |]; [| done].
    destruct (Device.has_name d') eqn:Hn; [| done].
    by injection Hd as ->.
  - intros (ev & Hev & He & Hd & Hn). exists ev. split; [done |].
    by rewrite He, Hd, Hn.
Qed.

Lemma filter_unseen_skip seen d l :
  Device.id d ∈ seen ->
  filter (fun x => Device.id x ∉ seen) (filter (fun x => Device.id x <> Device.id d) l) =
  filter (fun x => Device.id x ∉ seen) l.
Proof.
  intros Hin. rewrite list_filter_filter. apply list_filter_iff.
  intros x. split; [tauto |]. intros Hx. split; [done |]. congruence.
Qed.

Lemma filter_unseen_add seen d l :
  filter (fun x => Device.id x ∉ seen) (filter (fun x => Device.id x <> Device.id d) l) =
  filter (fun x => Device.id x ∉ ({[Device.id d]} ∪ seen : gset string)) l.
Proof.
  rewrite list_filter_filter. apply list_filter_iff.
  intros x. rewrite not_elem_of_union, not_elem_of_singleton. tauto.
Qed.

(** The listener of [src/App.tsx], started with any set and any world. *)
Lemma App_scan_from seen w events :
  devices (snd (foldl App.scanCallback (seen, w) events)) =
  devices w ++
    filter (fun d => Device.id d ∉ seen) (first_seen (named_devices events)).
Proof.
  revert seen w. induction events as [| [err dev] rest IH]; intros seen w.
  - cbn. by rewrite app_nil_r.
  - unfold named_devices. cbn [foldl omap list_omap scan_error scan_device].
    fold (named_devices rest).
    cbn [App.scanCallback scan_error scan_device].
    destruct err as [msg |]; [by rewrite IH |].
    destruct dev as [device |]; [| by rewrite IH].
    destruct (Device.has_name device); cbn [andb]; [| by rewrite IH].
    cbn [first_seen]. rewrite filter_cons.
    case_bool_decide as Hseen; cbn [negb].
    + rewrite IH. rewrite decide_False by tauto.
      by rewrite filter_unseen_skip.
    + rewrite IH. rewrite decide_True by done. cbn [devices setDevices print].
      rewrite <- app_assoc. cbn [app]. by rewrite filter_unseen_add.
Qed.

Lemma filter_unlisted_skip (prev : list Device.t) d l :
  Device.id d ∈ ids prev ->
  filter (fun x => Device.id x ∉ ids prev)
    (filter (fun x => Device.id x <> Device.id d) l) =
  filter (fun x => Device.id x ∉ ids prev) l.
Proof.
  intros Hin. rewrite list_filter_filter. apply list_filter_iff.
  intros x. split; [tauto |]. intros Hx. split; [done |]. congruence.
Qed.

Lemma filter_unlisted_add (prev : list Device.t) d l :
  filter (fun x => Device.id x ∉ ids prev)
    (filter (fun x => Device.id x <> Device.id d) l) =
  filter (fun x => Device.id x ∉ ids (prev ++ [d])) l.
Proof.
  rewrite list_filter_filter. apply list_filter_iff.
  intros x. rewrite fmap_app, elem_of_app, fmap_cons, fmap_nil, list_elem_of_singleton.
  tauto.
Qed.

(** The listener of [src/ble.tsx], started with any world. *)
Lemma Ble_scan_from w events :
  devices (foldl Ble.scanCallback w events) =
  devices w ++
    filter (fun d => Device.id d ∉ ids (devices w)) (first_seen (named_devices events)).
Proof.
  revert w. induction events as [| [err dev] rest IH]; intros w.
  - cbn. by rewrite app_nil_r.
  - cbn [foldl]. rewrite IH. clear IH.
    unfold Ble.scanCallback, named_devices.
    cbn [omap list_omap scan_error scan_device]. fold (named_devices rest).
    destruct err as [msg |]; [reflexivity |].
    destruct dev as [device |]; [| reflexivity].
    destruct (Device.has_name device); [| reflexivity].
    cbn [first_seen devices setDevices print]. rewrite filter_cons.
    destruct (list_find _ (devices w)) as [[i x] |] eqn:Hfind.
    + apply list_find_Some in Hfind as (Hx & Hid & _).
      assert (Device.id device ∈ ids (devices w)) as Hin.
      { rewrite <- Hid. apply list_elem_of_fmap_2.
        by eapply list_elem_of_lookup_2. }
      rewrite decide_False by tauto. by rewrite filter_unlisted_skip.
    + apply list_find_None in Hfind.
      assert (Device.id device ∉ ids (devices w)) as Hnin.
      { intros (x & Hid & Hx)%list_elem_of_fmap.
        rewrite Forall_forall in Hfind. by apply (Hfind x). }
      rewrite decide_True by done.
      rewrite <- app_assoc. cbn [app]. by rewrite filter_unlisted_add.
Qed.

Lemma filter_all (P : Device.t -> Prop) `{!forall x, Decision (P x)} l :
  (forall x, P x) -> filter P l = l.
Proof.
  intros HP. induction l as [| x rest IH]; [reflexivity |].
  rewrite filter_cons, decide_True by apply HP. by rewrite IH.
Qed.

Lemma App_scanWindow_devices w events :
  isScanning w = false ->
  devices (App.scanWindow w events) = first_seen (named_devices events).
Proof.
  intros Hidle. unfold App.scanWindow, App.startScan. rewrite Hidle.
  rewrite App_scan_from. cbn [devices issue setDevices app].
  apply filter_all. intros x. apply not_elem_of_empty.
Qed.

Lemma Ble_scanWindow_devices w events :
  isScanning w = false ->
  devices (Ble.scanWindow w events) = first_seen (named_devices events).
Proof.
  intros Hidle. unfold Ble.scanWindow, Ble.startScan. rewrite Hidle.
  rewrite Ble_scan_from. cbn [devices issue setDevices app].
  apply filter_all. intros x. rewrite fmap_nil. apply not_elem_of_nil.
Qed.

(** C4.  A scan window started while no scan is active ends with the
    device list holding, for every id that some error-free event carried
    together with a non-empty name, exactly one entry: the device of the
    first such event, in the order of these first events.  No id occurs
    twice and no entry lacks a name.  It holds for the listener backed by
    a [Set] ([src/App.tsx]) and for the one that searches the list
    ([src/ble.tsx]). *)
Theorem scan_keeps_first_named_device_per_id w events :
  isScanning w = false ->
  devices (App.scanWindow w events) = first_seen (named_devices events) /\
  devices (Ble.scanWindow w events) = devices (App.scanWindow w events) /\
  devices (App.scanWindow w events) `sublist_of` named_devices events /\
  NoDup (Device.id <$> devices (App.scanWindow w events)) /\
  (forall i, i ∈ Device.id <$> devices (App.scanWindow w events) <->
     exists ev d, ev ∈ events /\ scan_error ev = None /\
                  scan_device ev = Some d /\ Device.has_name d = true /\
                  Device.id d = i) /\
  (forall d, d ∈ devices (App.scanWindow w events) <->
     exists l1 l2, named_devices events = l1 ++ d :: l2 /\
                   Device.id d ∉ Device.id <$> l1) /\
  (forall d, d ∈ devices (App.scanWindow w events) -> Device.has_name d = true).
Proof.
  intros Hidle.
  rewrite (Ble_scanWindow_devices w events Hidle).
  rewrite (App_scanWindow_devices w events Hidle).
  split; [reflexivity |]. split; [reflexivity |].
  split; [apply first_seen_sublist |].
  split; [apply first_seen_ids_NoDup |].
  split; [| split].
  - intros i. rewrite first_seen_ids, list_elem_of_fmap. split.
    + intros (d & -> & Hd). apply named_devices_spec in Hd as (ev & Hev & He & Hdev & Hn).
      by exists ev, d.
    + intros (ev & d & Hev & He & Hdev & Hn & <-). exists d. split; [done |].
      apply named_devices_spec. by exists ev.
  - apply first_seen_is_first.
  - intros d Hd.
    pose proof (elem_of_sublist _ _ _ Hd (first_seen_sublist _)) as Hin.
    by apply named_devices_spec in Hin as (ev & _ & _ & _ & Hn).
Qed.

End ScanAggregator.

Lemma scan_keeps_first_named_device_per_id_witness :
  isScanning initial = false /\
  devices
    (App.scanWindow initial
       [ {| scan_error := None;
            scan_device := Some {| Device.id := "AA:01"; Device.name := Some "Meter-1" |} |};
         {| scan_error := None;
            scan_device := Some {| Device.id := "BB:02"; Device.name := None |} |};
         {| scan_error := None;
            scan_device := Some {| Device.id := "AA:01"; Device.name := Some "Meter-1b" |} |};
         {| scan_error := None;
            scan_device := Some {| Device.id := "CC:03"; Device.name := Some "" |} |};
         {| scan_error := None;
            scan_device := Some {| Device.id := "DD:04"; Device.name := Some "Valve" |} |};
         {| scan_error := None;
            scan_device := Some {| Device.id := "AA:01"; Device.name := Some "Meter-1" |} |} ]) =
  [ {| Device.id := "AA:01"; Device.name := Some "Meter-1" |};
    {| Device.id := "DD:04"; Device.name := Some "Valve" |} ].
Proof.
  split; [reflexivity |].
  refine (eq_trans (proj1 (scan_keeps_first_named_device_per_id initial _ _)) _);
    reflexivity.
Defined.

(** ** The disconnect listener *)

(** The listener is registered for the connected device's id only: the
    disconnection of any other device changes nothing. *)
Lemma onDeviceDisconnected_other w cd deviceId :
  connectedDevice w = Some cd -> Device.id cd <> deviceId ->
  onDeviceDisconnected deviceId w = w.
Proof.
  intros Hcd Hne. unfold onDeviceDisconnected. rewrite Hcd.
  by rewrite decide_False.
Qed.

(** ** Teardown *)

Section TeardownFacts.

Variable T : Transport.
Implicit Types (w : World) (cd : Device.t).

Lemma disconnectDevice_cancel_fails cd w e :
  isConnected T cd = Normal true ->
  cancelConnection T cd = Throw e ->
  disconnectDevice T (Some cd) w =
    (Normal tt,
     print LError [VStr "Disconnection error:"; VStr (message_of e)]
       (issue (CancelConnection cd)
          (issue (IsConnected cd)
             (print LLog [VStr "Attempting to disconnect from:"; name_of cd] w)))).
Proof.
  intros Hc Hx.
  unfold disconnectDevice, try_catch, bind, await, log, error, act.
  rewrite Hc, Hx. reflexivity.
Qed.

Lemma disconnectDevice_check_fails cd w e :
  isConnected T cd = Throw e ->
  disconnectDevice T (Some cd) w =
    (Normal tt,
     print LError [VStr "Disconnection error:"; VStr (message_of e)]
       (issue (IsConnected cd)
          (print LLog [VStr "Attempting to disconnect from:"; name_of cd] w))).
Proof.
  intros Hc.
  unfold disconnectDevice, try_catch, bind, await, log, error, act.
  rewrite Hc. reflexivity.
Qed.

Lemma disconnectDevice_cancel_ok cd w d' :
  isConnected T cd = Normal true ->
  cancelConnection T cd = Normal d' ->
  disconnectDevice T (Some cd) w =
    (Normal tt,
     setDeviceData None
       (setConnectedDevice None
          (print LLog [VStr "Disconnected successfully"]
             (issue (CancelConnection cd)
                (issue (IsConnected cd)
                   (print LLog [VStr "Attempting to disconnect from:"; name_of cd] w)))))).
Proof.
  intros Hc Hx.
  unfold disconnectDevice, try_catch, bind, await, log, error, act.
  rewrite Hc, Hx. reflexivity.
Qed.

Lemma disconnectDevice_not_connected cd w :
  isConnected T cd = Normal false ->
  disconnectDevice T (Some cd) w =
    (Normal tt,
     setDeviceData None
       (setConnectedDevice None
          (print LLog [VStr "Device is not connected, skipping disconnection"]
             (issue (IsConnected cd)
                (print LLog [VStr "Attempting to disconnect from:"; name_of cd] w))))).
Proof.
  intros Hc.
  unfold disconnectDevice, try_catch, bind, await, log, error, act.
  rewrite Hc. reflexivity.
Qed.

(** Whatever the transport answers, [disconnectDevice] completes
    normally, issues nothing but the connected check and the cancel on the
    old device, leaves the scan state alone, and either clears both
    session cells or leaves both as they were. *)
Lemma disconnectDevice_summary cd w :
  fst (disconnectDevice T (Some cd) w) = Normal tt /\
  isScanning (snd (disconnectDevice T (Some cd) w)) = isScanning w /\
  devices (snd (disconnectDevice T (Some cd) w)) = devices w /\
  (exists ops, trace (snd (disconnectDevice T (Some cd) w)) = trace w ++ ops /\
               Forall (fun op => is_handshake op = false) ops) /\
  (exists out, console (snd (disconnectDevice T (Some cd) w)) = console w ++ out) /\
  ((connectedDevice (snd (disconnectDevice T (Some cd) w)) = None /\
    deviceData (snd (disconnectDevice T (Some cd) w)) = None) \/
   (connectedDevice (snd (disconnectDevice T (Some cd) w)) = connectedDevice w /\
    deviceData (snd (disconnectDevice T (Some cd) w)) = deviceData w)).
Proof.
  destruct (isConnected T cd) as [[|] | e] eqn:Hc.
  - destruct (cancelConnection T cd) as [d' | e] eqn:Hx.
    + rewrite (disconnectDevice_cancel_ok _ _ _ Hc Hx). cbn.
      rewrite <- !app_assoc.
      repeat split; [by eexists; split; [| repeat constructor] | by eexists | by left].
    + rewrite (disconnectDevice_cancel_fails _ _ _ Hc Hx). cbn.
      rewrite <- !app_assoc.
      repeat split; [by eexists; split; [| repeat constructor] | by eexists | by right].
  - rewrite (disconnectDevice_not_connected _ _ Hc). cbn.
    rewrite <- !app_assoc.
    repeat split; [by eexists; split; [| repeat constructor] | by eexists | by left].
  - rewrite (disconnectDevice_check_fails _ _ _ Hc). cbn.
    rewrite <- !app_assoc.
    repeat split; [by eexists; split; [| repeat constructor] | by eexists | by right].
Qed.

End TeardownFacts.

(** C9, the claim as stated fails: with [meter] connected and two fields
    stored, a rejected [cancelConnection] leaves the connected-device
    cell and the device data exactly as they were. *)
Lemma disconnectDevice_keeps_session_when_cancel_fails :
  isConnected Scenario.cancel_rejected Scenario.meter = Normal true /\
  cancelConnection Scenario.cancel_rejected Scenario.meter =
    Throw (Error "Operation was cancelled") /\
  connectedDevice
    (snd (disconnectDevice Scenario.cancel_rejected
            (connectedDevice Scenario.session) Scenario.session)) =
    Some Scenario.meter /\
  deviceData
    (snd (disconnectDevice Scenario.cancel_rejected
            (connectedDevice Scenario.session) Scenario.session)) =
    deviceData Scenario.session /\
  deviceData Scenario.session <> None.
Proof. repeat split; discriminate. Qed.

(** C9, amended.  When the cancel of the connection is rejected, or the
    connected check before it, [disconnectDevice] prints the error and
    changes nothing else: the connected-device cell and the device data
    stay as they were.  Both are cleared when the cancel succeeds and
    when it is skipped because the device is reported as not connected.
    In no case does [disconnectDevice] itself raise. *)
Theorem disconnectDevice_clears_only_on_success T w cd :
  connectedDevice w = Some cd ->
  fst (disconnectDevice T (connectedDevice w) w) = Normal tt /\
  (forall e,
     (isConnected T cd = Normal true /\ cancelConnection T cd = Throw e) \/
     isConnected T cd = Throw e ->
     connectedDevice (snd (disconnectDevice T (connectedDevice w) w)) = Some cd /\
     deviceData (snd (disconnectDevice T (connectedDevice w) w)) = deviceData w /\
     last (console (snd (disconnectDevice T (connectedDevice w) w))) =
       Some (LError, [VStr "Disconnection error:"; VStr (message_of e)])) /\
  ((exists d', isConnected T cd = Normal true /\ cancelConnection T cd = Normal d') \/
   isConnected T cd = Normal false ->
   connectedDevice (snd (disconnectDevice T (connectedDevice w) w)) = None /\
   deviceData (snd (disconnectDevice T (connectedDevice w) w)) = None).
Proof.
  intros Hcd. rewrite Hcd. split; [apply disconnectDevice_summary |]. split.
  - intros e [[Hc Hx] | Hc].
    + rewrite (disconnectDevice_cancel_fails _ _ _ _ Hc Hx). cbn.
      rewrite last_snoc. by rewrite Hcd.
    + rewrite (disconnectDevice_check_fails _ _ _ _ Hc). cbn.
      rewrite last_snoc. by rewrite Hcd.
  - intros [(d' & Hc & Hx) | Hc].
    + by rewrite (disconnectDevice_cancel_ok _ _ _ _ Hc Hx).
    + by rewrite (disconnectDevice_not_connected _ _ _ Hc).
Qed.

Lemma disconnectDevice_clears_only_on_success_witness :
  connectedDevice
    (snd (disconnectDevice Scenario.healthy
            (connectedDevice Scenario.session) Scenario.session)) = None /\
  deviceData
    (snd (disconnectDevice Scenario.healthy
            (connectedDevice Scenario.session) Scenario.session)) = None.
Proof.
  apply (proj2 (proj2 (disconnectDevice_clears_only_on_success
                         Scenario.healthy Scenario.session Scenario.meter eq_refl))).
  left. exists Scenario.meter. split; reflexivity.
Defined.

(** ** Connecting *)

Section ConnectFacts.

Variable T : Transport.
Implicit Types (w : World) (device connected : Device.t).


Lemma App_cleanup_summary captured w :
  fst (App_cleanup T captured w) = Normal tt /\
  (exists ops, trace (snd (App_cleanup T captured w)) = trace w ++ ops /\
               Forall (fun op => is_handshake op = false) ops) /\
  (exists out, console (snd (App_cleanup T captured w)) = console w ++ out) /\
  (captured = None -> snd (App_cleanup T captured w) = w) /\
  ((connectedDevice (snd (App_cleanup T captured w)) = None /\
    deviceData (snd (App_cleanup T captured w)) = None) \/
   (connectedDevice (snd (App_cleanup T captured w)) = connectedDevice w /\
    deviceData (snd (App_cleanup T captured w)) = deviceData w)).
Proof.
  destruct captured as [cd |]; cbn [App_cleanup].
  - unfold bind, warn, act.
    pose proof (disconnectDevice_summary T cd
                  (print LWarn [VStr "Cleaning up partial connection..."] w))
      as (Hr & _ & _ & Hops & [out Hout] & Hst).
    repeat split; [exact Hr | exact Hops | | discriminate | exact Hst].
    exists ((LWarn, [VStr "Cleaning up partial connection..."]) :: out).
    rewrite Hout. cbn. by rewrite <- app_assoc.
  - repeat split; [| | by right].
    + exists []. by rewrite app_nil_r.
    + exists []. by rewrite app_nil_r.
Qed.

Lemma App_connectToDevice_mtu_fails captured device connected e w :
  connect T device = Normal connected ->
  requestMTU T connected 250 = Throw e ->
  App.connectToDevice T captured device w =
    App_cleanup T captured
      (print LError [VStr "Error connecting to device: "; VStr (Device.id device);
                     VStr (message_of e)]
         (issue (RequestMTU connected 250)
            (print LLog [VStr "Successfully connected to device: "; name_of connected;
                         VStr " ("; VStr (Device.id connected); VStr ")"]
               (issue (Connect device)
                  (print LLog [VStr "Attempting to connect to device: "; name_of device;
                               VStr " ("; VStr (Device.id device); VStr ")"] w))))).
Proof.
  intros Hc Hm.
  unfold App.connectToDevice, try_catch, bind, await, log, error, act.
  rewrite Hc, Hm. destruct captured; reflexivity.
Qed.

Lemma Ble_teardown_previous_summary captured w :
  fst (Ble_teardown_previous T captured w) = Normal tt /\
  (exists ops, trace (snd (Ble_teardown_previous T captured w)) = trace w ++ ops /\
               Forall (fun op => is_handshake op = false) ops) /\
  ((connectedDevice (snd (Ble_teardown_previous T captured w)) = None /\
    deviceData (snd (Ble_teardown_previous T captured w)) = None) \/
   (connectedDevice (snd (Ble_teardown_previous T captured w)) = connectedDevice w /\
    deviceData (snd (Ble_teardown_previous T captured w)) = deviceData w)).
Proof.
  destruct captured as [cd |]; cbn [Ble_teardown_previous].
  - unfold bind, log, act.
    pose proof (disconnectDevice_summary T cd
                  (print LLog [VStr "Disconnecting from previously connected device: ";
                               name_of cd] w))
      as (Hr & _ & _ & Hops & _ & Hst).
    repeat split; [exact Hr | exact Hops | exact Hst].
  - repeat split; [| by right].
    exists []. by rewrite app_nil_r.
Qed.

Lemma Ble_connectToDevice_already_connected captured device w :
  isDeviceConnected T (Device.id device) = Normal true ->
  Ble.connectToDevice T captured device w =
    (Normal tt,
     setConnectedDevice (Some device)
       (print LLog [VStr "Device is already connected. Skipping reconnection."]
          (issue (IsDeviceConnected (Device.id device))
             (print LLog [VStr "Checking if device is already connected..."]
                (snd (Ble_teardown_previous T captured w)))))).
Proof.
  intros Hq.
  pose proof (Ble_teardown_previous_summary captured w) as (Hr & _).
  unfold Ble.connectToDevice, try_catch. unfold bind at 1.
  fold (Ble_teardown_previous T captured).
  destruct (Ble_teardown_previous T captured w) as [r w1]. cbn [fst snd] in *.
  subst r. unfold bind, await, log, act. rewrite Hq. reflexivity.
Qed.

Lemma Ble_connectToDevice_mtu_fails captured device connected e w :
  isDeviceConnected T (Device.id device) = Normal false ->
  connect T device = Normal connected ->
  requestMTU T connected 250 = Throw e ->
  Ble.connectToDevice T captured device w =
    (Normal tt,
     print LError [VStr "Connection error:"; VStr (message_of e)]
       (issue (RequestMTU connected 250)
          (setConnectedDevice (Some connected)
             (print LLog [VStr "Connected to:"; name_of connected]
                (issue (Connect device)
                   (print LLog [VStr "Connecting to device:"; name_of device]
                      (issue (IsDeviceConnected (Device.id device))
                         (print LLog [VStr "Checking if device is already connected..."]
                            (snd (Ble_teardown_previous T captured w)))))))))).
Proof.
  intros Hq Hc Hm.
  pose proof (Ble_teardown_previous_summary captured w) as (Hr & _).
  unfold Ble.connectToDevice, try_catch. unfold bind at 1.
  fold (Ble_teardown_previous T captured).
  destruct (Ble_teardown_previous T captured w) as [r w1]. cbn [fst snd] in *.
  subst r. unfold bind, await, log, error, act. rewrite Hq, Hc, Hm. reflexivity.
Qed.

End ConnectFacts.

(** C8, the claim as stated fails: the connect succeeds, the MTU request
    is rejected, and the attempt ends there.  In [src/App.tsx] the
    component stays [Idle] and service discovery is never asked for; in
    [src/ble.tsx] discovery is never asked for either. *)
Lemma connectToDevice_mtu_failure_is_fatal :
  connect Scenario.mtu_rejected Scenario.meter = Normal Scenario.meter /\
  requestMTU Scenario.mtu_rejected Scenario.meter 250 =
    Throw (Error "MTU request failed") /\
  connectionState
    (snd (App.connectToDevice Scenario.mtu_rejected (connectedDevice initial)
            Scenario.meter initial)) = Idle /\
  trace
    (snd (App.connectToDevice Scenario.mtu_rejected (connectedDevice initial)
            Scenario.meter initial)) =
    [Connect Scenario.meter; RequestMTU Scenario.meter 250] /\
  trace
    (snd (Ble.connectToDevice Scenario.mtu_rejected (connectedDevice initial)
            Scenario.meter initial)) =
    [IsDeviceConnected (Device.id Scenario.meter); Connect Scenario.meter;
     RequestMTU Scenario.meter 250].
Proof.
  split; [reflexivity |]. split; [reflexivity |].
  split; [reflexivity |]. split; reflexivity.
Qed.

(** C8, amended.  When the connect succeeds and the MTU request (size
    250) is rejected, the failure ends the attempt: the error is printed
    and neither service discovery nor any read follows.  In
    [src/App.tsx] the new device is not installed: the connected-device
    cell keeps its value, or is cleared by the clean-up of a previous
    session.  In [src/ble.tsx] the new device was installed before the
    MTU request and stays installed, with no device data stored by the
    attempt. *)
Theorem connectToDevice_aborts_when_mtu_fails T w device connected e :
  connect T device = Normal connected ->
  requestMTU T connected 250 = Throw e ->
  (fst (App.connectToDevice T (connectedDevice w) device w) = Normal tt /\
   (exists ops,
      trace (snd (App.connectToDevice T (connectedDevice w) device w)) =
        trace w ++ Connect device :: RequestMTU connected 250 :: ops /\
      Forall (fun op => is_handshake op = false) ops) /\
   (connectedDevice (snd (App.connectToDevice T (connectedDevice w) device w)) =
      connectedDevice w \/
    connectedDevice (snd (App.connectToDevice T (connectedDevice w) device w)) = None) /\
   (connectedDevice w = None ->
    connectionState (snd (App.connectToDevice T (connectedDevice w) device w)) = Idle) /\
   (LError, [VStr "Error connecting to device: "; VStr (Device.id device);
             VStr (message_of e)])
     ∈ console (snd (App.connectToDevice T (connectedDevice w) device w))) /\
  (isDeviceConnected T (Device.id device) = Normal false ->
   fst (Ble.connectToDevice T (connectedDevice w) device w) = Normal tt /\
   (exists ops,
      trace (snd (Ble.connectToDevice T (connectedDevice w) device w)) =
        trace w ++ ops ++ [IsDeviceConnected (Device.id device); Connect device;
                           RequestMTU connected 250] /\
      Forall (fun op => is_handshake op = false) ops) /\
   connectedDevice (snd (Ble.connectToDevice T (connectedDevice w) device w)) =
     Some connected /\
   (deviceData (snd (Ble.connectToDevice T (connectedDevice w) device w)) = deviceData w \/
    deviceData (snd (Ble.connectToDevice T (connectedDevice w) device w)) = None) /\
   last (console (snd (Ble.connectToDevice T (connectedDevice w) device w))) =
     Some (LError, [VStr "Connection error:"; VStr (message_of e)])).
Proof.
  intros Hc Hm. split.
  - rewrite (App_connectToDevice_mtu_fails T _ _ _ _ w Hc Hm).
    match goal with
    | |- context [App_cleanup T ?c ?w0] =>
        pose proof (App_cleanup_summary T c w0) as (Hr & [ops [Ht Hops]] & [out Hout] & Hnone & Hst)
    end.
    cbn [trace connectedDevice console deviceData print issue] in *.
    split; [exact Hr |]. split; [| split; [| split]].
    + exists ops. rewrite Ht, <- !app_assoc. done.
    + destruct Hst as [[Hcd _] | [Hcd _]]; [by right | by left].
    + intros Hidle. unfold connectionState.
      destruct Hst as [[-> _] | [-> _]]; [done | by rewrite Hidle].
    + rewrite Hout, !elem_of_app. left. right. apply list_elem_of_singleton. done.
  - intros Hq.
    rewrite (Ble_connectToDevice_mtu_fails T _ _ _ _ w Hq Hc Hm).
    pose proof (Ble_teardown_previous_summary T (connectedDevice w) w)
      as (_ & [ops [Ht Hops]] & Hst).
    cbn [fst snd trace connectedDevice console deviceData print issue
         setConnectedDevice].
    split; [done |]. split; [| split; [done | split]].
    + exists ops. rewrite Ht, <- !app_assoc. done.
    + destruct Hst as [[_ Hd] | [_ Hd]]; [by right | by left].
    + apply last_snoc.
Qed.

Lemma connectToDevice_aborts_when_mtu_fails_witness :
  connectedDevice
    (snd (Ble.connectToDevice Scenario.mtu_rejected (connectedDevice initial)
            Scenario.meter initial)) = Some Scenario.meter /\
  last (console
          (snd (Ble.connectToDevice Scenario.mtu_rejected (connectedDevice initial)
                  Scenario.meter initial))) =
    Some (LError, [VStr "Connection error:"; VStr "MTU request failed"]).
Proof.
  pose proof (proj2 (connectToDevice_aborts_when_mtu_fails Scenario.mtu_rejected initial
                       Scenario.meter Scenario.meter (Error "MTU request failed")
                       eq_refl eq_refl) eq_refl)
    as (_ & _ & Hcd & _ & Hlast).
  split; [exact Hcd | exact Hlast].
Defined.

(** C10.  In [src/ble.tsx], when the manager reports the device as
    already connected, [connectToDevice] installs it as the connected
    device and returns: apart from the teardown of a previous session and
    the query itself no call is issued, so neither a connect, nor an MTU
    request, nor service discovery, nor a read takes place in that
    call. *)
Theorem connectToDevice_skips_handshake_when_already_connected T w device :
  isDeviceConnected T (Device.id device) = Normal true ->
  fst (Ble.connectToDevice T (connectedDevice w) device w) = Normal tt /\
  connectedDevice (snd (Ble.connectToDevice T (connectedDevice w) device w)) =
    Some device /\
  connectionState (snd (Ble.connectToDevice T (connectedDevice w) device w)) = Ready /\
  (exists ops,
     trace (snd (Ble.connectToDevice T (connectedDevice w) device w)) =
       trace w ++ ops /\
     Forall (fun op => is_handshake op = false) ops) /\
  (connectedDevice w = None ->
   trace (snd (Ble.connectToDevice T (connectedDevice w) device w)) =
     trace w ++ [IsDeviceConnected (Device.id device)]).
Proof.
  intros Hq.
  rewrite (Ble_connectToDevice_already_connected T _ _ w Hq).
  pose proof (Ble_teardown_previous_summary T (connectedDevice w) w)
    as (_ & [ops [Ht Hops]] & _).
  cbn [fst snd trace connectedDevice print issue setConnectedDevice connectionState].
  split; [done |]. split; [done |]. split; [done |]. split.
  - exists (ops ++ [IsDeviceConnected (Device.id device)]).
    rewrite Ht, <- app_assoc. split; [done |].
    apply Forall_app. split; [exact Hops |]. by repeat constructor.
  - intros Hnone. rewrite Hnone. reflexivity.
Qed.

Lemma connectToDevice_skips_handshake_when_already_connected_witness :
  connectedDevice
    (snd (Ble.connectToDevice Scenario.already_connected
            (connectedDevice Scenario.session) Scenario.other Scenario.session)) =
    Some Scenario.other /\
  trace
    (snd (Ble.connectToDevice Scenario.already_connected
            (connectedDevice Scenario.session) Scenario.other Scenario.session)) =
    [IsConnected Scenario.meter; CancelConnection Scenario.meter;
     IsDeviceConnected (Device.id Scenario.other)].
Proof.
  split; [| reflexivity].
  exact (proj1 (proj2 (connectToDevice_skips_handshake_when_already_connected
                         Scenario.already_connected Scenario.session Scenario.other
                         eq_refl))).
Defined.

(** ** Fetching the device information *)

Section FetchFacts.

Variable T : Transport.
Implicit Types (w : World) (device : Device.t).

Ltac run_fetch :=
  unfold App.fetchDeviceInformation, App.read, try_catch, bind, await, log,
    error, act, ret, lift;
  cbn [fst snd].

(** C6, amended.  When the connected check succeeds, the first [k] of the
    six reads succeed and read number [k] is rejected,
    [fetchDeviceInformation] stops at that read: the later reads are not
    issued, the error is printed as "Failed to fetch device information:"
    and no field is printed or stored; the device data and the
    connected-device cell are as before.  The call itself completes
    normally. *)
Theorem fetchDeviceInformation_aborts_on_failed_read w device k sc e :
  isConnected T device = Normal true ->
  App.reads !! k = Some sc ->
  (forall j sc', (j < k)%nat -> App.reads !! j = Some sc' ->
     exists c, readCharacteristicForService T device (fst sc') (snd sc') = Normal c) ->
  readCharacteristicForService T device (fst sc) (snd sc) = Throw e ->
  fst (App.fetchDeviceInformation T device w) = Normal tt /\
  trace (snd (App.fetchDeviceInformation T device w)) =
    trace w ++ IsConnected device :: (read_op device <$> take (S k) App.reads) /\
  console (snd (App.fetchDeviceInformation T device w)) =
    console w ++
      [(LLog, [VStr "Checking connection state..."]);
       (LError, [VStr "Failed to fetch device information:"; VStr (message_of e)])] /\
  deviceData (snd (App.fetchDeviceInformation T device w)) = deviceData w /\
  connectedDevice (snd (App.fetchDeviceInformation T device w)) = connectedDevice w.
Proof.
  intros Hc Hk Hprev Hfail.
  do 6 (destruct k as [| k];
        [injection Hk as <-; cbn [fst snd] in Hfail;
         repeat match goal with
                | H : forall j sc', (j < S ?n)%nat -> _ |- _ =>
                    let Hn := fresh "Hread" in
                    destruct (H n _ ltac:(lia) eq_refl) as [? Hn];
                    cbn [fst snd] in Hn;
                    assert (forall j sc', (j < n)%nat -> App.reads !! j = Some sc' ->
                              exists c, readCharacteristicForService T device
                                          (fst sc') (snd sc') = Normal c)
                      by (intros j sc' Hj; apply H; lia);
                    clear H
                end;
         run_fetch; rewrite Hc; cbn [fst snd];
         repeat match goal with
                | H : readCharacteristicForService _ _ _ _ = Normal _ |- _ =>
                    rewrite H; clear H
                end;
         rewrite Hfail; cbn; rewrite <- ?app_assoc; repeat split |]).
  discriminate Hk.
Qed.

End FetchFacts.

Lemma fetchDeviceInformation_aborts_on_failed_read_witness :
  console (snd (App.fetchDeviceInformation Scenario.three_reads_rejected
                  Scenario.meter Scenario.session)) =
    [(LLog, [VStr "Checking connection state..."]);
     (LError, [VStr "Failed to fetch device information:";
               VStr "Characteristic read failed"])] /\
  deviceData (snd (App.fetchDeviceInformation Scenario.three_reads_rejected
                     Scenario.meter Scenario.session)) =
    deviceData Scenario.session.
Proof.
  assert (Hprev : forall j sc', (j < 2)%nat -> App.reads !! j = Some sc' ->
            exists c, readCharacteristicForService Scenario.three_reads_rejected
                        Scenario.meter (fst sc') (snd sc') = Normal c).
  { intros [| [| j]] sc' Hj Hsc; [| | lia]; injection Hsc as <-;
      by exists {| value := Some "QUI=" |}. }
  pose proof (fetchDeviceInformation_aborts_on_failed_read
                Scenario.three_reads_rejected Scenario.session Scenario.meter 2
                (App.DEVICE_INFO, App.serialNumber) (Error "Characteristic read failed")
                eq_refl eq_refl Hprev eq_refl)
    as (_ & _ & Hconsole & Hdata & _).
  split; [exact Hconsole | exact Hdata].
Defined.

(** C6, the claim as stated fails: three of the six reads are rejected
    and three would succeed, yet the fetch reports no field at all: the
    console holds the error and none of the values, the reads after the
    first rejected one are never issued, and no device data is stored. *)
Lemma fetchDeviceInformation_partial_failure_is_total :
  is_Normal (readCharacteristicForService Scenario.three_reads_rejected
               Scenario.meter App.GAP App.deviceName) = true /\
  is_Normal (readCharacteristicForService Scenario.three_reads_rejected
               Scenario.meter App.GAP App.appearance) = true /\
  is_Normal (readCharacteristicForService Scenario.three_reads_rejected
               Scenario.meter App.DEVICE_INFO App.firmwareVersion) = true /\
  is_Normal (readCharacteristicForService Scenario.three_reads_rejected
               Scenario.meter App.DEVICE_INFO App.serialNumber) = false /\
  console (snd (App.fetchDeviceInformation Scenario.three_reads_rejected
                  Scenario.meter initial)) =
    [(LLog, [VStr "Checking connection state..."]);
     (LError, [VStr "Failed to fetch device information:";
               VStr "Characteristic read failed"])] /\
  trace (snd (App.fetchDeviceInformation Scenario.three_reads_rejected
                Scenario.meter initial)) =
    [IsConnected Scenario.meter;
     ReadCharacteristicForService Scenario.meter "1800" "2A00";
     ReadCharacteristicForService Scenario.meter "1800" "2A01";
     ReadCharacteristicForService Scenario.meter "180A" "2A25"] /\
  deviceData (snd (App.fetchDeviceInformation Scenario.three_reads_rejected
                     Scenario.meter initial)) = None.
Proof.
  split; [reflexivity |]. split; [reflexivity |]. split; [reflexivity |].
  split; [reflexivity |]. split; [reflexivity |]. split; reflexivity.
Qed.

Section FetchMore.

Variable T : Transport.
Implicit Types (w : World) (device : Device.t).

(** When all six reads succeed and the appearance value holds at least
    two bytes, the six fields are printed; a value that is [null] or
    empty prints as the empty string. *)
Lemma fetchDeviceInformation_all_reads_succeed w device c0 c1 c2 c3 c4 c5 :
  isConnected T device = Normal true ->
  readCharacteristicForService T device App.GAP App.deviceName = Normal c0 ->
  readCharacteristicForService T device App.GAP App.appearance = Normal c1 ->
  readCharacteristicForService T device App.DEVICE_INFO App.serialNumber = Normal c2 ->
  readCharacteristicForService T device App.DEVICE_INFO App.firmwareVersion = Normal c3 ->
  readCharacteristicForService T device App.DEVICE_INFO App.hardwareRevisionString = Normal c4 ->
  readCharacteristicForService T device App.DEVICE_INFO "180F" = Normal c5 ->
  (2 <= length (Buffer_from_base64 (or_else (value c1) "")))%nat ->
  exists appearance,
    fst (readUInt16LE 0 (Buffer_from_base64 (or_else (value c1) ""))) = Normal appearance /\
    console (snd (App.fetchDeviceInformation T device w)) =
      console w ++
        [(LLog, [VStr "Checking connection state..."]);
         (LLog, [VStr "Successfully read characteristics"]);
         (LLog, [VStr "Device Name:"; VStr (App.text_of c0)]);
         (LLog, [VStr "Appearance:"; VInt appearance]);
         (LLog, [VStr "Serial Number:"; VStr (App.text_of c2)]);
         (LLog, [VStr "Firmware Version:"; VStr (App.text_of c3)]);
         (LLog, [VStr "Hardware Revision:"; VStr (App.text_of c4)]);
         (LLog, [VStr "Manufacturer:"; VStr (App.text_of c5)])] /\
    deviceData (snd (App.fetchDeviceInformation T device w)) = deviceData w.
Proof.
  intros Hc H0 H1 H2 H3 H4 H5 Hlen.
  destruct (fst (readUInt16LE 0 (Buffer_from_base64 (or_else (value c1) ""))))
    as [appearance | e] eqn:Hread.
  - exists appearance. split; [reflexivity |].
    unfold App.fetchDeviceInformation, App.read, try_catch, bind, await, log,
      error, act, ret, lift.
    cbn [fst snd]. rewrite Hc, H0, H1, H2, H3, H4, H5, Hread. cbn.
    rewrite <- ?app_assoc. split; reflexivity.
  - exfalso. revert Hread. unfold readUInt16LE, bbind.
    change 0 with (Z.of_nat 0). rewrite checkOffset_ok by lia. discriminate.
Qed.

(** All six reads succeed but the appearance comes back [null]: the
    16-bit read of the empty buffer raises, and the fetch fails as a
    whole. *)
Lemma fetchDeviceInformation_null_appearance w device c0 c2 c3 c4 c5 :
  isConnected T device = Normal true ->
  readCharacteristicForService T device App.GAP App.deviceName = Normal c0 ->
  readCharacteristicForService T device App.GAP App.appearance =
    Normal {| value := None |} ->
  readCharacteristicForService T device App.DEVICE_INFO App.serialNumber = Normal c2 ->
  readCharacteristicForService T device App.DEVICE_INFO App.firmwareVersion = Normal c3 ->
  readCharacteristicForService T device App.DEVICE_INFO App.hardwareRevisionString = Normal c4 ->
  readCharacteristicForService T device App.DEVICE_INFO "180F" = Normal c5 ->
  console (snd (App.fetchDeviceInformation T device w)) =
    console w ++
      [(LLog, [VStr "Checking connection state..."]);
       (LError, [VStr "Failed to fetch device information:";
                 VStr "Trying to access beyond buffer length"])].
Proof.
  intros Hc H0 H1 H2 H3 H4 H5.
  unfold App.fetchDeviceInformation, App.read, try_catch, bind, await, log,
    error, act, ret, lift.
  cbn [fst snd]. rewrite Hc, H0, H1, H2, H3, H4, H5.
  change (fst (readUInt16LE 0 (Buffer_from_base64 (or_else (value {| value := None |}) ""))))
    with (@Throw Z (RangeError "Trying to access beyond buffer length")).
  cbn. rewrite <- ?app_assoc. reflexivity.
Qed.

(** A read that succeeds with no value gives the empty text. *)
Lemma text_of_missing_value :
  App.text_of {| value := None |} = "" /\ App.text_of {| value := Some "" |} = "".
Proof. split; reflexivity. Qed.

(** The revision that stores its result behaves alike: a rejected read
    leaves the device data as it was, the field read before it is not
    stored. *)
Lemma RevB_fetchDeviceInformation_failed_read w device c e :
  isConnected T device = Normal true ->
  readCharacteristicForService T device "180A" "2A25" = Normal c ->
  readCharacteristicForService T device "180A" "2A26" = Throw e ->
  fst (RevB.fetchDeviceInformation T device w) = Normal tt /\
  deviceData (snd (RevB.fetchDeviceInformation T device w)) = deviceData w /\
  last (console (snd (RevB.fetchDeviceInformation T device w))) =
    Some (LError, [VStr "Failed to fetch device information:"; VStr (message_of e)]).
Proof.
  intros Hc H0 H1.
  unfold RevB.fetchDeviceInformation, try_catch, bind, await, log, warn,
    error, act, ret.
  cbn [fst snd]. rewrite Hc, H0, H1. cbn. rewrite last_snoc. done.
Qed.

End FetchMore.

(** * Further properties of the code *)

(** ** The codec *)

Section CodecMore.

Import App_codec.
Implicit Types (frame buf : Buffer).

Lemma be_value_range (bytes : list byte) :
  0 <= be_value bytes < 256 ^ Z.of_nat (length bytes).
Proof.
  induction bytes as [| b rest IH]; [cbn; lia |].
  cbn [be_value length]. rewrite Nat2Z.inj_succ, Z.pow_succ_r by lia.
  pose proof (byte_to_Z_range b).
  assert (0 < 256 ^ Z.of_nat (length rest)) by (apply Z.pow_pos_nonneg; lia).
  nia.
Qed.

Lemma length_field off width buf : (length (field off width buf) <= width)%nat.
Proof. unfold field. rewrite length_take. lia. Qed.

Lemma field_value_range off width buf :
  0 <= be_value (field off width buf) < 256 ^ Z.of_nat width.
Proof.
  pose proof (be_value_range (field off width buf)) as [Hlo Hhi].
  pose proof (length_field off width buf).
  split; [exact Hlo |].
  eapply Z.lt_le_trans; [exact Hhi |].
  apply Z.pow_le_mono_r; lia.
Qed.

(** X1.  The voltage parser of the first revision reads the big-endian
    32-bit value of the first four bytes and divides it by 1000; on a
    frame of fewer than four bytes it returns null. *)
Theorem RevA_parseBatteryVoltage_layout frame :
  ((4 <= length frame)%nat ->
   RevA.parseBatteryVoltage frame =
     Some (PrimFloat.div (number_of_Z (be_value (field 0 4 frame)))
                         (number_of_Z 1000))) /\
  ((length frame < 4)%nat -> RevA.parseBatteryVoltage frame = None).
Proof.
  unfold RevA.parseBatteryVoltage. change 0 with (Z.of_nat 0). split; intros Hlen.
  - rewrite readUInt32BE_in_bounds by lia. reflexivity.
  - rewrite readUInt32BE_short by lia. reflexivity.
Qed.

Lemma RevA_parseBatteryVoltage_layout_witness :
  RevA.parseBatteryVoltage [x00; x00; x0d; xac; x07] = Some 3.5%float /\
  RevA.parseBatteryVoltage [x0b; xb8; x00] = None.
Proof.
  split.
  - refine (eq_trans (proj1 (RevA_parseBatteryVoltage_layout _) _) _);
      [cbn; lia | reflexivity].
  - apply (proj2 (RevA_parseBatteryVoltage_layout _)). cbn; lia.
Defined.

(** X2.  The parsers of the last revision return null exactly on the
    truncated frames: [parseBatteryVoltage] when the frame has fewer than
    5 bytes, [parseMeterReading] when it has fewer than 7.  A meter
    reading that is returned is an unsigned 32-bit value, and the raw
    voltage that is printed is an unsigned 16-bit value. *)
Theorem parsers_null_iff_truncated frame :
  (parseBatteryVoltage frame = None <-> (length frame < 5)%nat) /\
  (parseMeterReading frame = None <-> (length frame < 7)%nat) /\
  (forall v, parseMeterReading frame = Some v -> 0 <= v < 2 ^ 32) /\
  (forall raw, In (LLog, [VStr "batteryVoltageRaw"; VInt raw])
                  (printed (parseBatteryVoltage_run frame)) ->
               0 <= raw < 2 ^ 16).
Proof.
  unfold parseBatteryVoltage, parseMeterReading. repeat split.
  - intros Hnone. destruct (le_lt_dec 5 (length frame)) as [Hge | Hlt]; [| exact Hlt].
    rewrite parseBatteryVoltage_run_long in Hnone by exact Hge. discriminate.
  - intros Hlt. by rewrite parseBatteryVoltage_run_short.
  - intros Hnone. destruct (le_lt_dec 7 (length frame)) as [Hge | Hlt]; [| exact Hlt].
    rewrite parseMeterReading_run_long in Hnone by exact Hge. discriminate.
  - intros Hlt. by rewrite parseMeterReading_run_short.
  - destruct (le_lt_dec 7 (length frame)) as [Hge | Hlt].
    + rewrite parseMeterReading_run_long in H by exact Hge.
      injection H as <-. apply (field_value_range 3 4 frame).
    + rewrite parseMeterReading_run_short in H by exact Hlt. discriminate.
  - destruct (le_lt_dec 7 (length frame)) as [Hge | Hlt].
    + rewrite parseMeterReading_run_long in H by exact Hge.
      injection H as <-. apply (field_value_range 3 4 frame).
    + rewrite parseMeterReading_run_short in H by exact Hlt. discriminate.
  - destruct (le_lt_dec 5 (length frame)) as [Hge | Hlt].
    + rewrite parseBatteryVoltage_run_long in H by exact Hge.
      destruct H as [H | []]. injection H as <-.
      apply (field_value_range 3 2 frame).
    + rewrite parseBatteryVoltage_run_short in H by exact Hlt.
      destruct H as [H | []]. discriminate.
  - destruct (le_lt_dec 5 (length frame)) as [Hge | Hlt].
    + rewrite parseBatteryVoltage_run_long in H by exact Hge.
      destruct H as [H | []]. injection H as <-.
      apply (field_value_range 3 2 frame).
    + rewrite parseBatteryVoltage_run_short in H by exact Hlt.
      destruct H as [H | []]. discriminate.
Qed.

Lemma parsers_null_iff_truncated_witness :
  (length [x00; x00; x00; xff; xff; xff] < 7)%nat /\
  parseMeterReading [x00; x00; x00; xff; xff; xff; xff] = Some 4294967295 /\
  0 <= 4294967295 < 2 ^ 32.
Proof.
  split.
  - apply (proj1 (proj1 (proj2 (parsers_null_iff_truncated _)))). reflexivity.
  - split; [reflexivity |].
    apply (proj1 (proj2 (proj2 (parsers_null_iff_truncated
                                  [x00; x00; x00; xff; xff; xff; xff])))).
    reflexivity.
Defined.

End CodecMore.

(** ** Base64 text of a buffer *)

Section Base64.

Implicit Types (buf : Buffer).

Lemma base64Value_Char v :
  0 <= v < 64 ->
  base64Value (base64Char v) = Some v /\ Ascii.eqb (base64Char v) "=" = false.
Proof.
  intros Hv.
  assert (exists n, (n < 64)%nat /\ v = Z.of_nat n) as (n & Hn & ->)
    by (exists (Z.to_nat v); lia).
  clear Hv. do 64 (destruct n as [| n]; [split; reflexivity |]). lia.
Qed.

Lemma byte_of_to_Z (b : byte) : byte_of_Z (byte_to_Z b) = b.
Proof. destruct b; reflexivity. Qed.

Lemma base64clean_Char v rest :
  0 <= v < 64 ->
  base64clean (String (base64Char v) rest) = v :: base64clean rest.
Proof.
  intros Hv. destruct (base64Value_Char v Hv) as [Hval Hne].
  cbn [base64clean]. by rewrite Hne, Hval.
Qed.

Ltac sextet_lia := Z.div_mod_to_equations; lia.

Lemma decode_triple (b0 b1 b2 : byte) rest :
  Buffer_from_base64 (toString_base64 (b0 :: b1 :: b2 :: rest)) =
  b0 :: b1 :: b2 :: Buffer_from_base64 (toString_base64 rest).
Proof.
  pose proof (byte_to_Z_range b0). pose proof (byte_to_Z_range b1).
  pose proof (byte_to_Z_range b2).
  unfold Buffer_from_base64. cbn [toString_base64].
  set (num := byte_to_Z b0 * 65536 + byte_to_Z b1 * 256 + byte_to_Z b2).
  rewrite !base64clean_Char by (subst num; sextet_lia).
  cbn [base64Bytes].
  replace (num / 262144 mod 64 * 262144 + num / 4096 mod 64 * 4096 +
           num / 64 mod 64 * 64 + num mod 64) with num by (subst num; sextet_lia).
  replace (num / 65536 mod 256) with (byte_to_Z b0) by (subst num; sextet_lia).
  replace (num / 256 mod 256) with (byte_to_Z b1) by (subst num; sextet_lia).
  replace (num mod 256) with (byte_to_Z b2) by (subst num; sextet_lia).
  by rewrite !byte_of_to_Z.
Qed.

Lemma decode_pair (b0 b1 : byte) :
  Buffer_from_base64 (toString_base64 [b0; b1]) = [b0; b1].
Proof.
  pose proof (byte_to_Z_range b0). pose proof (byte_to_Z_range b1).
  unfold Buffer_from_base64. cbn [toString_base64].
  set (tmp := byte_to_Z b0 * 256 + byte_to_Z b1).
  rewrite !base64clean_Char by (subst tmp; sextet_lia).
  cbn [base64clean base64Bytes Ascii.eqb Bool.eqb].
  replace ((tmp / 1024 * 1024 + tmp / 16 mod 64 * 16 + tmp * 4 mod 64 / 4) / 256 mod 256)
    with (byte_to_Z b0) by (subst tmp; sextet_lia).
  replace ((tmp / 1024 * 1024 + tmp / 16 mod 64 * 16 + tmp * 4 mod 64 / 4) mod 256)
    with (byte_to_Z b1) by (subst tmp; sextet_lia).
  by rewrite !byte_of_to_Z.
Qed.

Lemma decode_single (b0 : byte) :
  Buffer_from_base64 (toString_base64 [b0]) = [b0].
Proof. destruct b0; reflexivity. Qed.

Lemma Buffer_from_base64_toString buf :
  Buffer_from_base64 (toString_base64 buf) = buf.
Proof.
  assert (forall n buf, (length buf <= n)%nat ->
            Buffer_from_base64 (toString_base64 buf) = buf) as Hall.
  { clear buf. induction n as [| n IH]; intros buf Hlen.
    - destruct buf; [reflexivity | cbn in Hlen; lia].
    - destruct buf as [| b0 [| b1 [| b2 rest]]].
      + reflexivity.
      + apply decode_single.
      + apply decode_pair.
      + rewrite decode_triple, IH; [reflexivity | cbn in Hlen; lia]. }
  apply (Hall (length buf)). lia.
Qed.

(** X3.  The base64 text of a buffer decodes back to the buffer.  In
    particular the text handed to the write of the DLMS request,
    [Buffer.from(dlmsRequest, "hex").toString("base64")], denotes the
    request frame: for the OBIS code of the source it is "wAEAC2AGA/8=",
    which decodes to C0 01 00 0B 60 06 03 FF. *)
Theorem base64_text_decodes_back :
  (forall buf, Buffer_from_base64 (toString_base64 buf) = buf) /\
  toString_base64 (Buffer_from_hex (RevA.dlmsRequest RevA.obisCode)) = "wAEAC2AGA/8=" /\
  Buffer_from_base64 "wAEAC2AGA/8=" = [xc0; x01; x00; x0b; x60; x06; x03; xff].
Proof.
  split; [exact Buffer_from_base64_toString | split; reflexivity].
Qed.

End Base64.

(** ** More on scanning *)

Section ScanMore.

Implicit Types (w : World) (events : list ScanEvent) (seen : gset string).

(** X4.  [startScan] while a scan is active is a no-op, in both files:
    when [isScanning] is set, the call changes nothing, neither the
    device list nor the calls made nor the console.  Hence calling it a
    second time (once the first call has been rendered) does nothing
    more than calling it once. *)
Theorem startScan_is_noop_while_scanning w :
  (isScanning w = true -> App.startScan w = w /\ Ble.startScan w = w) /\
  isScanning (App.startScan w) = true /\
  isScanning (Ble.startScan w) = true /\
  App.startScan (App.startScan w) = App.startScan w /\
  Ble.startScan (Ble.startScan w) = Ble.startScan w.
Proof.
  unfold App.startScan, Ble.startScan. split.
  - intros Hs. rewrite Hs. split; reflexivity.
  - destruct (isScanning w) eqn:Hs; cbn; rewrite ?Hs; repeat split.
Qed.

Lemma startScan_is_noop_while_scanning_witness :
  App.startScan
    (setIsScanning true (setDevices (fun _ => [Scenario.meter; Scenario.other]) initial)) =
  setIsScanning true (setDevices (fun _ => [Scenario.meter; Scenario.other]) initial) /\
  devices
    (Ble.startScan
       (setIsScanning true (setDevices (fun _ => [Scenario.meter; Scenario.other]) initial))) =
  [Scenario.meter; Scenario.other].
Proof.
  destruct (proj1 (startScan_is_noop_while_scanning
                     (setIsScanning true
                        (setDevices (fun _ => [Scenario.meter; Scenario.other]) initial)))
              eq_refl) as [Happ Hble].
  split; [exact Happ | rewrite Hble; reflexivity].
Defined.

Lemma stop_count_snoc ops op :
  stop_count (ops ++ [op]) =
  (stop_count ops + if is_stop_scan op then 1 else 0)%nat.
Proof.
  unfold stop_count. rewrite filter_app, length_app. f_equal.
  destruct op; reflexivity.
Qed.

Lemma App_scan_flags seen w events :
  isScanning (snd (foldl App.scanCallback (seen, w) events)) =
    match scan_errors events with [] => isScanning w | _ => false end /\
  stop_count (trace (snd (foldl App.scanCallback (seen, w) events))) =
    (stop_count (trace w) + length (scan_errors events))%nat /\
  connectedDevice (snd (foldl App.scanCallback (seen, w) events)) = connectedDevice w /\
  deviceData (snd (foldl App.scanCallback (seen, w) events)) = deviceData w.
Proof.
  revert seen w. induction events as [| [err dev] rest IH]; intros seen w.
  - cbn. repeat split. lia.
  - unfold scan_errors. cbn [foldl omap list_omap scan_error].
    fold (scan_errors rest). cbn [App.scanCallback scan_error scan_device].
    destruct err as [msg |].
    + destruct (IH seen (stopScan (print LError [VStr "Scan error:"; VStr msg] w)))
        as (-> & -> & -> & ->).
      cbn [stopScan setIsScanning issue print isScanning trace connectedDevice
           deviceData length].
      rewrite stop_count_snoc. cbn [is_stop_scan].
      repeat split; [by destruct (scan_errors rest) | lia].
    + destruct dev as [device |]; [| apply IH].
      destruct (Device.has_name device && _); [| apply IH].
      destruct (IH ({[Device.id device]} ∪ seen)
                  (setDevices (fun prevDevices => prevDevices ++ [device])
                     (print LLog [VStr "Discovered device:"; name_of device;
                                  VStr (Device.id device)] w)))
        as (-> & -> & -> & ->).
      repeat split.
Qed.

Lemma Ble_scan_flags w events :
  isScanning (foldl Ble.scanCallback w events) =
    match scan_errors events with [] => isScanning w | _ => false end /\
  stop_count (trace (foldl Ble.scanCallback w events)) =
    (stop_count (trace w) + length (scan_errors events))%nat /\
  connectedDevice (foldl Ble.scanCallback w events) = connectedDevice w /\
  deviceData (foldl Ble.scanCallback w events) = deviceData w.
Proof.
  revert w. induction events as [| [err dev] rest IH]; intros w.
  - cbn. repeat split. lia.
  - unfold scan_errors. cbn [foldl omap list_omap scan_error].
    fold (scan_errors rest).
    destruct (IH (Ble.scanCallback w {| scan_error := err; scan_device := dev |}))
      as (-> & -> & -> & ->). clear IH.
    unfold Ble.scanCallback. cbn [scan_error scan_device].
    destruct err as [msg |].
    + cbn [stopScan setIsScanning issue print isScanning trace connectedDevice
           deviceData length].
      rewrite stop_count_snoc. cbn [is_stop_scan].
      repeat split; [by destruct (scan_errors rest) | lia].
    + destruct dev as [device |]; [| repeat split].
      destruct (Device.has_name device); repeat split.
Qed.

(** X5.  In a scan window started while no scan is active, every event
    that carries an error calls [stopDeviceScan] once and clears the
    scanning flag, and no other event does: the flag is still set at the
    end exactly when no error arrived, and the radio was stopped as often
    as errors arrived.  The listener never touches the connected device
    or the device data. *)
Theorem scan_errors_stop_the_scan w events :
  isScanning w = false ->
  (isScanning (App.scanWindow w events) = true <-> scan_errors events = []) /\
  stop_count (trace (App.scanWindow w events)) =
    (stop_count (trace w) + length (scan_errors events))%nat /\
  connectedDevice (App.scanWindow w events) = connectedDevice w /\
  deviceData (App.scanWindow w events) = deviceData w /\
  (isScanning (Ble.scanWindow w events) = true <-> scan_errors events = []) /\
  stop_count (trace (Ble.scanWindow w events)) =
    (stop_count (trace w) + length (scan_errors events))%nat /\
  connectedDevice (Ble.scanWindow w events) = connectedDevice w /\
  deviceData (Ble.scanWindow w events) = deviceData w.
Proof.
  intros Hidle. unfold App.scanWindow, Ble.scanWindow, App.startScan, Ble.startScan.
  rewrite Hidle.
  match goal with
  | |- context [foldl App.scanCallback (?s, ?w0) events] =>
      destruct (App_scan_flags s w0 events) as (-> & -> & -> & ->)
  end.
  match goal with
  | |- context [foldl Ble.scanCallback ?w0 events] =>
      destruct (Ble_scan_flags w0 events) as (-> & -> & -> & ->)
  end.
  cbn [isScanning trace connectedDevice deviceData issue setDevices setIsScanning print].
  rewrite !stop_count_snoc. cbn [is_stop_scan].
  repeat split; try lia; destruct (scan_errors events); done.
Qed.

Lemma scan_errors_stop_the_scan_witness :
  isScanning
    (App.scanWindow initial
       [ {| scan_error := None; scan_device := Some Scenario.meter |};
         {| scan_error := Some "BluetoothLE is powered off"; scan_device := None |};
         {| scan_error := None; scan_device := Some Scenario.other |} ]) <> true /\
  stop_count
    (trace
       (App.scanWindow initial
          [ {| scan_error := None; scan_device := Some Scenario.meter |};
            {| scan_error := Some "BluetoothLE is powered off"; scan_device := None |};
            {| scan_error := None; scan_device := Some Scenario.other |} ])) = 1%nat.
Proof.
  pose proof (scan_errors_stop_the_scan initial
                [ {| scan_error := None; scan_device := Some Scenario.meter |};
                  {| scan_error := Some "BluetoothLE is powered off"; scan_device := None |};
                  {| scan_error := None; scan_device := Some Scenario.other |} ]
                eq_refl) as (Hflag & Hcount & _).
  split; [| exact Hcount].
  intros Hset. apply Hflag in Hset. discriminate Hset.
Defined.

End ScanMore.

Section ScanInvariants.

Implicit Types (w : World) (events : list ScanEvent) (seen : gset string).

Lemma App_scan_set_tracks_list seen w events :
  seen = list_to_set (Device.id <$> devices w) ->
  fst (foldl App.scanCallback (seen, w) events) =
    list_to_set (Device.id <$> devices (snd (foldl App.scanCallback (seen, w) events))).
Proof.
  revert seen w. induction events as [| [err dev] rest IH]; intros seen w Hinv.
  - exact Hinv.
  - cbn [foldl App.scanCallback scan_error scan_device].
    destruct err as [msg |]; [by apply IH |].
    destruct dev as [device |]; [| by apply IH].
    destruct (Device.has_name device && _); [| by apply IH].
    apply IH. cbn [devices setDevices print].
    rewrite fmap_app, list_to_set_app_L, <- Hinv. cbn [fmap list_fmap].
    rewrite list_to_set_singleton_L. apply set_eq. intros i.
    rewrite !elem_of_union. tauto.
Qed.

(** X6.  The [Set] of seen ids that backs the listener of the last
    revision always holds exactly the ids of the devices in the list: at
    the end of any scan window an id is in the set if and only if a
    device with that id is in the list. *)
Theorem scan_set_is_ids_of_list w events :
  isScanning w = false ->
  fst (foldl App.scanCallback (∅, App.startScan w) events) =
    list_to_set (Device.id <$> devices (App.scanWindow w events)) /\
  (forall i, i ∈ fst (foldl App.scanCallback (∅, App.startScan w) events) <->
             exists d, d ∈ devices (App.scanWindow w events) /\ Device.id d = i).
Proof.
  intros Hidle.
  assert (fst (foldl App.scanCallback (∅, App.startScan w) events) =
          list_to_set (Device.id <$> devices (App.scanWindow w events))) as Heq.
  { unfold App.scanWindow. apply App_scan_set_tracks_list.
    unfold App.startScan. rewrite Hidle. reflexivity. }
  split; [exact Heq |].
  intros i. rewrite Heq, elem_of_list_to_set, list_elem_of_fmap.
  split; intros (d & H1 & H2); exists d; by split.
Qed.

Lemma scan_set_is_ids_of_list_witness :
  fst (foldl App.scanCallback (∅, App.startScan initial)
         [ {| scan_error := None; scan_device := Some Scenario.meter |};
           {| scan_error := None; scan_device := Some Scenario.meter |};
           {| scan_error := None; scan_device := Some Scenario.other |} ]) =
  list_to_set [Device.id Scenario.meter; Device.id Scenario.other].
Proof.
  refine (eq_trans (proj1 (scan_set_is_ids_of_list initial _ eq_refl)) _).
  reflexivity.
Defined.

Lemma length_named_devices events :
  (length (named_devices events) <= length events)%nat.
Proof.
  unfold named_devices. induction events as [| ev rest IH]; [cbn; lia |].
  cbn [omap list_omap length].
  destruct (match scan_error ev with Some _ => _ | None => _ end); cbn [length]; lia.
Qed.

Lemma length_new_devices (P : Device.t -> Prop) `{!forall x, Decision (P x)} events :
  (length (filter P (first_seen (named_devices events))) <= length events)%nat.
Proof.
  pose proof (length_filter P (first_seen (named_devices events))).
  pose proof (sublist_length _ _ (first_seen_sublist (named_devices events))).
  pose proof (length_named_devices events). lia.
Qed.

(** X7.  The scan listeners only ever append: whatever the state they
    start from and whatever events arrive, the devices already listed
    stay where they are, and every event adds at most one device.  This
    holds for the listener of the last revision and for the one of
    [src/ble.tsx]. *)
Theorem scan_listener_only_appends seen w events :
  devices w `prefix_of` devices (snd (foldl App.scanCallback (seen, w) events)) /\
  (length (devices (snd (foldl App.scanCallback (seen, w) events))) <=
     length (devices w) + length events)%nat /\
  devices w `prefix_of` devices (foldl Ble.scanCallback w events) /\
  (length (devices (foldl Ble.scanCallback w events)) <=
     length (devices w) + length events)%nat.
Proof.
  rewrite App_scan_from, Ble_scan_from, !length_app.
  pose proof (length_new_devices (fun d => Device.id d ∉ seen) events).
  pose proof (length_new_devices
                (fun d => Device.id d ∉ Device.id <$> devices w) events).
  repeat split; try (by eexists); lia.
Qed.

End ScanInvariants.

(** ** More on connecting ([src/App.tsx]) *)

Section AppConnectMore.

Variable T : Transport.
Implicit Types (w : World) (device connected old : Device.t).

Lemma App_connectToDevice_succeeds captured device connected d1 d2 w :
  connect T device = Normal connected ->
  requestMTU T connected 250 = Normal d1 ->
  discoverAllServicesAndCharacteristics T connected = Normal d2 ->
  fst (App.connectToDevice T captured device w) = Normal tt /\
  connectedDevice (snd (App.connectToDevice T captured device w)) = Some connected /\
  deviceData (snd (App.connectToDevice T captured device w)) = deviceData w /\
  trace (snd (App.connectToDevice T captured device w)) =
    trace w ++ [Connect device; RequestMTU connected 250;
                DiscoverAllServicesAndCharacteristics connected].
Proof.
  intros Hc Hm Hd.
  unfold App.connectToDevice, try_catch, bind, await, log, error, act.
  rewrite Hc, Hm, Hd. cbn. rewrite <- !app_assoc. repeat split.
Qed.

(** A failed attempt runs the clean-up on a world whose state cells are
    those of the start. *)
Lemma App_connectToDevice_fails captured device w :
  (exists e, connect T device = Throw e) \/
  (exists connected e, connect T device = Normal connected /\
                       requestMTU T connected 250 = Throw e) \/
  (exists connected d1 e, connect T device = Normal connected /\
                          requestMTU T connected 250 = Normal d1 /\
                          discoverAllServicesAndCharacteristics T connected = Throw e) ->
  exists w1,
    App.connectToDevice T captured device w = App_cleanup T captured w1 /\
    cells w1 = cells w /\
    (exists ops, trace w1 = trace w ++ Connect device :: ops).
Proof.
  intros [[e Hc] | [(c & e & Hc & Hm) | (c & d1 & e & Hc & Hm & Hd)]];
    eexists; (split; [| split]);
    try (unfold App.connectToDevice, try_catch, bind, await, log, error, act;
         rewrite Hc, ?Hm, ?Hd; destruct captured; reflexivity);
    try reflexivity;
    cbn [trace print issue]; rewrite <- ?app_assoc; by eexists.
Qed.

(** X8.  In the last revision, starting with no connected device,
    [connectToDevice] makes the component [Ready] exactly when the
    connect, the MTU request of size 250 and the service discovery all
    succeed; it then installs the device the connect returned, after
    exactly these three calls in this order, and stores no device
    data. *)
Theorem connectToDevice_ready_iff_all_steps_succeed w device :
  connectedDevice w = None ->
  (connectionState (snd (App.connectToDevice T (connectedDevice w) device w)) = Ready <->
   exists connected d1 d2,
     connect T device = Normal connected /\
     requestMTU T connected 250 = Normal d1 /\
     discoverAllServicesAndCharacteristics T connected = Normal d2) /\
  (forall connected d1 d2,
     connect T device = Normal connected ->
     requestMTU T connected 250 = Normal d1 ->
     discoverAllServicesAndCharacteristics T connected = Normal d2 ->
     connectedDevice (snd (App.connectToDevice T (connectedDevice w) device w)) =
       Some connected /\
     deviceData (snd (App.connectToDevice T (connectedDevice w) device w)) =
       deviceData w /\
     trace (snd (App.connectToDevice T (connectedDevice w) device w)) =
       trace w ++ [Connect device; RequestMTU connected 250;
                   DiscoverAllServicesAndCharacteristics connected]).
Proof.
  intros Hidle. split.
  - split.
    + intros Hready.
      destruct (connect T device) as [c | e] eqn:Hc.
      * destruct (requestMTU T c 250) as [d1 | e] eqn:Hm.
        -- destruct (discoverAllServicesAndCharacteristics T c) as [d2 | e] eqn:Hd;
             [by exists c, d1, d2 |].
           exfalso.
           destruct (App_connectToDevice_fails (connectedDevice w) device w)
             as (w1 & Heq & Hcells & _);
             [right; right; by exists c, d1, e |].
           rewrite Heq, Hidle in Hready. cbn in Hready.
           unfold connectionState in Hready.
           injection Hcells as _ _ Hcd _. by rewrite Hcd, Hidle in Hready.
        -- exfalso.
           destruct (App_connectToDevice_fails (connectedDevice w) device w)
             as (w1 & Heq & Hcells & _);
             [right; left; by exists c, e |].
           rewrite Heq, Hidle in Hready. cbn in Hready.
           unfold connectionState in Hready.
           injection Hcells as _ _ Hcd _. by rewrite Hcd, Hidle in Hready.
      * exfalso.
        destruct (App_connectToDevice_fails (connectedDevice w) device w)
          as (w1 & Heq & Hcells & _); [left; by exists e |].
        rewrite Heq, Hidle in Hready. cbn in Hready.
        unfold connectionState in Hready.
        injection Hcells as _ _ Hcd _. by rewrite Hcd, Hidle in Hready.
    + intros (c & d1 & d2 & Hc & Hm & Hd).
      destruct (App_connectToDevice_succeeds (connectedDevice w) device c d1 d2 w
                  Hc Hm Hd) as (_ & Hcd & _).
      unfold connectionState. by rewrite Hcd.
  - intros c d1 d2 Hc Hm Hd.
    by destruct (App_connectToDevice_succeeds (connectedDevice w) device c d1 d2 w
                   Hc Hm Hd) as (_ & ? & ? & ?).
Qed.

(** X9.  In the last revision, when a device is connected and an attempt
    to connect to another one fails at the connect, at the MTU request
    or at the discovery, the catch block tears the existing session down:
    if that teardown goes through (the cancel succeeds, or the device is
    reported as not connected) the component ends [Idle] with no device
    data; if the teardown fails too, the old session stays as it was. *)
Theorem failed_connect_tears_down_current_session w device old :
  connectedDevice w = Some old ->
  ((exists e, connect T device = Throw e) \/
   (exists connected e, connect T device = Normal connected /\
                        requestMTU T connected 250 = Throw e) \/
   (exists connected d1 e, connect T device = Normal connected /\
                           requestMTU T connected 250 = Normal d1 /\
                           discoverAllServicesAndCharacteristics T connected = Throw e)) ->
  fst (App.connectToDevice T (connectedDevice w) device w) = Normal tt /\
  (((exists d', isConnected T old = Normal true /\ cancelConnection T old = Normal d') \/
    isConnected T old = Normal false) ->
   connectionState (snd (App.connectToDevice T (connectedDevice w) device w)) = Idle /\
   deviceData (snd (App.connectToDevice T (connectedDevice w) device w)) = None) /\
  (((exists e, isConnected T old = Normal true /\ cancelConnection T old = Throw e) \/
    (exists e, isConnected T old = Throw e)) ->
   connectedDevice (snd (App.connectToDevice T (connectedDevice w) device w)) = Some old /\
   deviceData (snd (App.connectToDevice T (connectedDevice w) device w)) = deviceData w).
Proof.
  intros Hold Hfail.
  destruct (App_connectToDevice_fails (connectedDevice w) device w Hfail)
    as (w1 & -> & Hcells & _).
  injection Hcells as _ _ Hcd Hdata.
  rewrite Hold. cbn [App_cleanup]. unfold bind, warn, act.
  split; [apply disconnectDevice_summary |]. split.
  - intros [(d' & Hc & Hx) | Hc].
    + by rewrite (disconnectDevice_cancel_ok _ _ _ _ Hc Hx).
    + by rewrite (disconnectDevice_not_connected _ _ _ Hc).
  - intros [(e & Hc & Hx) | (e & Hc)].
    + rewrite (disconnectDevice_cancel_fails _ _ _ _ Hc Hx). cbn.
      by rewrite Hcd, Hdata, Hold.
    + rewrite (disconnectDevice_check_fails _ _ _ _ Hc). cbn.
      by rewrite Hcd, Hdata, Hold.
Qed.

End AppConnectMore.

Lemma connectToDevice_ready_iff_all_steps_succeed_witness :
  connectionState
    (snd (App.connectToDevice Scenario.healthy (connectedDevice initial)
            Scenario.meter initial)) = Ready /\
  trace
    (snd (App.connectToDevice Scenario.healthy (connectedDevice initial)
            Scenario.meter initial)) =
    [Connect Scenario.meter; RequestMTU Scenario.meter 250;
     DiscoverAllServicesAndCharacteristics Scenario.meter].
Proof.
  pose proof (connectToDevice_ready_iff_all_steps_succeed Scenario.healthy initial
                Scenario.meter eq_refl) as [Hiff Hok].
  split.
  - apply Hiff. exists Scenario.meter, Scenario.meter, Scenario.meter.
    repeat split.
  - exact (proj2 (proj2 (Hok Scenario.meter Scenario.meter Scenario.meter
                           eq_refl eq_refl eq_refl))).
Defined.

Lemma failed_connect_tears_down_current_session_witness :
  connectionState
    (snd (App.connectToDevice Scenario.mtu_rejected (connectedDevice Scenario.session)
            Scenario.other Scenario.session)) = Idle /\
  deviceData
    (snd (App.connectToDevice Scenario.mtu_rejected (connectedDevice Scenario.session)
            Scenario.other Scenario.session)) = None.
Proof.
  apply (proj1 (proj2 (failed_connect_tears_down_current_session
                         Scenario.mtu_rejected Scenario.session Scenario.other
                         Scenario.meter eq_refl
                         (or_intror (or_introl
                            (ex_intro _ Scenario.other
                               (ex_intro _ (Error "MTU request failed")
                                  (conj eq_refl eq_refl)))))))).
  left. exists Scenario.meter. split; reflexivity.
Defined.

(** ** More on connecting ([src/ble.tsx]) *)

Section BleConnectMore.

Variable T : Transport.
Implicit Types (w : World) (device connected old : Device.t).

(** After the teardown of the previous session, with the manager
    answering "not connected" and the connect succeeding. *)
Lemma Ble_connectToDevice_after_connect captured device connected w :
  isDeviceConnected T (Device.id device) = Normal false ->
  connect T device = Normal connected ->
  fst (Ble.connectToDevice T captured device w) = Normal tt /\
  connectedDevice (snd (Ble.connectToDevice T captured device w)) = Some connected /\
  ((exists d1 d2 battery valve,
      requestMTU T connected 250 = Normal d1 /\
      discoverAllServicesAndCharacteristics T connected = Normal d2 /\
      readCharacteristicForService T connected "180F" "2A19" = Normal battery /\
      readCharacteristicForService T connected
        "005a02fe-bea5-46a0-c000-73c0d9b578fc"
        "005a02fe-bea5-46a0-c101-73c0d9b578fc" = Normal valve /\
      deviceData (snd (Ble.connectToDevice T captured device w)) =
        Some (<["batteryLevel" := DNumber (parseInt16 (or_else (value battery) "0"))]>
                (<["valveStatus" := DString (or_else (value valve) "Unknown")]> ∅)) /\
      trace (snd (Ble.connectToDevice T captured device w)) =
        trace (snd (Ble_teardown_previous T captured w)) ++
          [IsDeviceConnected (Device.id device); Connect device;
           RequestMTU connected 250;
           DiscoverAllServicesAndCharacteristics connected;
           ReadCharacteristicForService connected "180F" "2A19";
           ReadCharacteristicForService connected
             "005a02fe-bea5-46a0-c000-73c0d9b578fc"
             "005a02fe-bea5-46a0-c101-73c0d9b578fc"]) \/
   ((exists e, requestMTU T connected 250 = Throw e \/
               discoverAllServicesAndCharacteristics T connected = Throw e \/
               readCharacteristicForService T connected "180F" "2A19" = Throw e \/
               readCharacteristicForService T connected
                 "005a02fe-bea5-46a0-c000-73c0d9b578fc"
                 "005a02fe-bea5-46a0-c101-73c0d9b578fc" = Throw e) /\
    deviceData (snd (Ble.connectToDevice T captured device w)) =
      deviceData (snd (Ble_teardown_previous T captured w)))).
Proof.
  intros Hq Hc.
  pose proof (Ble_teardown_previous_summary T captured w) as (Hr0 & _).
  remember (Ble.connectToDevice T captured device w) as r eqn:Hr.
  unfold Ble.connectToDevice, try_catch in Hr. unfold bind at 1 in Hr.
  fold (Ble_teardown_previous T captured) in Hr.
  destruct (Ble_teardown_previous T captured w) as [r0 w1]. cbn [fst snd] in *.
  subst r0. unfold bind, await, log, error, act in Hr. rewrite Hq, Hc in Hr.
  destruct (requestMTU T connected 250) as [d1 | e] eqn:Hm;
    [| subst r; cbn; split; [reflexivity |]; split; [reflexivity |];
       right; split; [exists e; tauto | done]].
  destruct (discoverAllServicesAndCharacteristics T connected) as [d2 | e] eqn:Hd;
    [| subst r; cbn; split; [reflexivity |]; split; [reflexivity |];
       right; split; [exists e; tauto | done]].
  destruct (readCharacteristicForService T connected "180F" "2A19")
    as [battery | e] eqn:Hb;
    [| subst r; cbn; split; [reflexivity |]; split; [reflexivity |];
       right; split; [exists e; tauto | done]].
  destruct (readCharacteristicForService T connected
              "005a02fe-bea5-46a0-c000-73c0d9b578fc"
              "005a02fe-bea5-46a0-c101-73c0d9b578fc") as [valve | e] eqn:Hv;
    [| subst r; cbn; split; [reflexivity |]; split; [reflexivity |];
       right; split; [exists e; tauto | done]].
  subst r. cbn. split; [reflexivity |]. split; [reflexivity |].
  left. exists d1, d2, battery, valve.
  rewrite <- !app_assoc. repeat split.
Qed.

(** X10.  In [src/ble.tsx], when the device is not yet connected and the
    connect, the MTU request, the discovery and the two reads all
    succeed, the device data holds exactly two fields: [batteryLevel],
    the battery value text parsed as a hex integer (["0"] when the value
    is missing), and [valveStatus], the raw value text (["Unknown"] when
    it is missing).  The battery value is taken to be base64 text of at
    most 13 characters: such a text has no sign and no white space and
    its hex prefix is below 2^52, so the integer read is the number
    [parseInt] returns.  The six calls are issued in the order manager
    query, connect, MTU request (250), discovery, battery read, valve
    read. *)
Theorem ble_connect_stores_battery_and_valve w device connected d1 d2 battery valve :
  (forall text, value battery = Some text ->
     base64_text text = true /\ (String.length text <= 13)%nat) ->
  isDeviceConnected T (Device.id device) = Normal false ->
  connect T device = Normal connected ->
  requestMTU T connected 250 = Normal d1 ->
  discoverAllServicesAndCharacteristics T connected = Normal d2 ->
  readCharacteristicForService T connected "180F" "2A19" = Normal battery ->
  readCharacteristicForService T connected
    "005a02fe-bea5-46a0-c000-73c0d9b578fc"
    "005a02fe-bea5-46a0-c101-73c0d9b578fc" = Normal valve ->
  exists data,
    deviceData (snd (Ble.connectToDevice T (connectedDevice w) device w)) = Some data /\
    data !! "batteryLevel" = Some (DNumber (parseInt16 (or_else (value battery) "0"))) /\
    data !! "valveStatus" = Some (DString (or_else (value valve) "Unknown")) /\
    (forall k, k <> "batteryLevel" -> k <> "valveStatus" -> data !! k = None) /\
    connectedDevice (snd (Ble.connectToDevice T (connectedDevice w) device w)) =
      Some connected /\
    (connectedDevice w = None ->
     trace (snd (Ble.connectToDevice T (connectedDevice w) device w)) =
       trace w ++
         [IsDeviceConnected (Device.id device); Connect device;
          RequestMTU connected 250;
          DiscoverAllServicesAndCharacteristics connected;
          ReadCharacteristicForService connected "180F" "2A19";
          ReadCharacteristicForService connected
            "005a02fe-bea5-46a0-c000-73c0d9b578fc"
            "005a02fe-bea5-46a0-c101-73c0d9b578fc"]).
Proof.
  intros _ Hq Hc Hm Hd Hb Hv.
  destruct (Ble_connectToDevice_after_connect (connectedDevice w) device connected w
              Hq Hc) as (_ & Hcd & [Hok | [(e & Hbad) _]]).
  - destruct Hok as (d1' & d2' & b' & v' & _ & _ & Hb' & Hv' & Hdata & Htrace).
    rewrite Hb in Hb'. rewrite Hv in Hv'.
    injection Hb' as <-. injection Hv' as <-.
    eexists. split; [exact Hdata |].
    split; [by rewrite lookup_insert_eq |].
    split; [by rewrite lookup_insert_ne, lookup_insert_eq |].
    split; [| split; [exact Hcd |]].
    + intros k Hk1 Hk2. by rewrite !lookup_insert_ne, lookup_empty.
    + intros Hnone. rewrite Htrace, Hnone. reflexivity.
  - exfalso. destruct Hbad as [H | [H | [H | H]]]; congruence.
Qed.

(** X11.  In [src/ble.tsx] the device is installed as soon as the connect
    succeeds: whatever happens to the MTU request, the discovery and the
    reads, it is the connected device at the end.  When one of these
    later steps fails, the attempt stores nothing, so the device data is
    what the teardown of the previous session left; in particular, if
    that teardown failed, the new device is shown with the device data of
    the previous session. *)
Theorem ble_connect_installs_before_handshake w device connected :
  isDeviceConnected T (Device.id device) = Normal false ->
  connect T device = Normal connected ->
  connectedDevice (snd (Ble.connectToDevice T (connectedDevice w) device w)) =
    Some connected /\
  (forall e,
     requestMTU T connected 250 = Throw e \/
     discoverAllServicesAndCharacteristics T connected = Throw e \/
     readCharacteristicForService T connected "180F" "2A19" = Throw e \/
     readCharacteristicForService T connected
       "005a02fe-bea5-46a0-c000-73c0d9b578fc"
       "005a02fe-bea5-46a0-c101-73c0d9b578fc" = Throw e ->
     (deviceData (snd (Ble.connectToDevice T (connectedDevice w) device w)) = None \/
      deviceData (snd (Ble.connectToDevice T (connectedDevice w) device w)) =
        deviceData w) /\
     (forall old e',
        connectedDevice w = Some old ->
        (isConnected T old = Normal true /\ cancelConnection T old = Throw e') \/
        isConnected T old = Throw e' ->
        deviceData (snd (Ble.connectToDevice T (connectedDevice w) device w)) =
          deviceData w)).
Proof.
  intros Hq Hc.
  destruct (Ble_connectToDevice_after_connect (connectedDevice w) device connected w
              Hq Hc) as (_ & Hcd & Hcases).
  split; [exact Hcd |]. intros e Hbad.
  assert (deviceData (snd (Ble.connectToDevice T (connectedDevice w) device w)) =
          deviceData (snd (Ble_teardown_previous T (connectedDevice w) w))) as Hdata.
  { destruct Hcases as [(d1 & d2 & b & v & Hm & Hd & Hb & Hv & _) | [_ Hdata]];
      [| exact Hdata].
    exfalso. destruct Hbad as [H | [H | [H | H]]]; congruence. }
  rewrite Hdata. split.
  - destruct (Ble_teardown_previous_summary T (connectedDevice w) w)
      as (_ & _ & [[_ Hd] | [_ Hd]]); [by left | by right].
  - intros old e' Hold Hfail. rewrite Hold. cbn [Ble_teardown_previous].
    unfold bind, log, act. destruct Hfail as [[Hi Hx] | Hi].
    + by rewrite (disconnectDevice_cancel_fails _ _ _ _ Hi Hx).
    + by rewrite (disconnectDevice_check_fails _ _ _ _ Hi).
Qed.

End BleConnectMore.

Lemma ble_connect_stores_battery_and_valve_witness :
  exists data,
    deviceData (snd (Ble.connectToDevice Scenario.healthy (connectedDevice initial)
                       Scenario.meter initial)) = Some data /\
    data !! "batteryLevel" = Some (DNumber NaN) /\
    data !! "valveStatus" = Some (DString "QUI=").
Proof.
  assert (forall text, value {| value := Some "QUI=" |} = Some text ->
            base64_text text = true /\ (String.length text <= 13)%nat) as Htext.
  { intros text Heq. injection Heq as <-. split; [reflexivity | cbn; lia]. }
  destruct (ble_connect_stores_battery_and_valve Scenario.healthy initial
              Scenario.meter Scenario.meter Scenario.meter Scenario.meter
              {| value := Some "QUI=" |} {| value := Some "QUI=" |}
              Htext eq_refl eq_refl eq_refl eq_refl eq_refl eq_refl)
    as (data & Hdata & Hb & Hv & _).
  exists data. split; [exact Hdata |]. split; [exact Hb | exact Hv].
Defined.

Lemma ble_connect_installs_before_handshake_witness :
  connectedDevice
    (snd (Ble.connectToDevice Scenario.mtu_rejected (connectedDevice initial)
            Scenario.meter initial)) = Some Scenario.meter.
Proof.
  exact (proj1 (ble_connect_installs_before_handshake Scenario.mtu_rejected initial
                  Scenario.meter Scenario.meter eq_refl eq_refl)).
Defined.

(** ** More on the teardown *)

Section TeardownMore.

Variable T : Transport.
Implicit Types (w : World) (cd device connected : Device.t).

(** X12.  [disconnectDevice] always asks the device whether it is
    connected first, and it cancels the connection exactly when the
    answer is yes: no cancel is issued after a "no" or after a failed
    check, and nothing else is ever called. *)
Theorem disconnect_cancels_only_after_positive_check w cd :
  exists ops,
    trace (snd (disconnectDevice T (Some cd) w)) = trace w ++ IsConnected cd :: ops /\
    ((isConnected T cd = Normal true /\ ops = [CancelConnection cd]) \/
     (isConnected T cd <> Normal true /\ ops = [])).
Proof.
  destruct (isConnected T cd) as [[|] | e] eqn:Hc.
  - exists [CancelConnection cd].
    destruct (cancelConnection T cd) as [d' | e] eqn:Hx.
    + rewrite (disconnectDevice_cancel_ok _ _ _ _ Hc Hx). cbn.
      rewrite <- app_assoc. split; [reflexivity | by left].
    + rewrite (disconnectDevice_cancel_fails _ _ _ _ Hc Hx). cbn.
      rewrite <- app_assoc. split; [reflexivity | by left].
  - exists []. rewrite (disconnectDevice_not_connected _ _ _ Hc). cbn.
    split; [reflexivity | by right].
  - exists []. rewrite (disconnectDevice_check_fails _ _ _ _ Hc). cbn.
    split; [reflexivity | by right].
Qed.

(** X14.  In the last revision a successful [connectToDevice] followed by
    a [disconnectDevice] whose cancel succeeds brings the component back
    to [Idle] with no device data, the scan state being untouched; the
    transport has seen exactly connect, MTU request (250), discovery,
    connected check and cancel, in this order. *)
Theorem connect_then_disconnect_returns_to_idle w device connected d1 d2 d3 w1 :
  connectedDevice w = None ->
  connect T device = Normal connected ->
  requestMTU T connected 250 = Normal d1 ->
  discoverAllServicesAndCharacteristics T connected = Normal d2 ->
  isConnected T connected = Normal true ->
  cancelConnection T connected = Normal d3 ->
  w1 = snd (App.connectToDevice T (connectedDevice w) device w) ->
  connectionState w1 = Ready /\
  cells (snd (disconnectDevice T (connectedDevice w1) w1)) =
    (isScanning w, devices w, None, None) /\
  trace (snd (disconnectDevice T (connectedDevice w1) w1)) =
    trace w ++ [Connect device; RequestMTU connected 250;
                DiscoverAllServicesAndCharacteristics connected;
                IsConnected connected; CancelConnection connected].
Proof.
  intros Hidle Hc Hm Hd Hi Hx ->.
  unfold App.connectToDevice, try_catch, bind, await, log, error, act.
  rewrite Hc, Hm, Hd. cbn [fst snd connectedDevice setConnectedDevice].
  rewrite (disconnectDevice_cancel_ok _ _ _ _ Hi Hx). cbn.
  rewrite <- !app_assoc. repeat split.
Qed.

End TeardownMore.

Lemma connect_then_disconnect_returns_to_idle_witness :
  cells
    (snd (disconnectDevice Scenario.healthy
            (connectedDevice
               (snd (App.connectToDevice Scenario.healthy (connectedDevice initial)
                       Scenario.meter initial)))
            (snd (App.connectToDevice Scenario.healthy (connectedDevice initial)
                    Scenario.meter initial)))) =
  (false, [], None, None).
Proof.
  exact (proj1 (proj2 (connect_then_disconnect_returns_to_idle Scenario.healthy
                         initial Scenario.meter Scenario.meter Scenario.meter
                         Scenario.meter Scenario.meter _
                         eq_refl eq_refl eq_refl eq_refl eq_refl eq_refl eq_refl))).
Defined.

(** ** What the handlers never do *)

Section HandlerFrames.

Variable T : Transport.
Implicit Types (w : World) (device : Device.t).

Lemma keeps_ret {A} (a : A) : keeps_cells (ret a).
Proof. intros w. reflexivity. Qed.

Lemma keeps_bind {A B} (m : Async A) (k : A -> Async B) :
  keeps_cells m -> (forall a, keeps_cells (k a)) -> keeps_cells (bind m k).
Proof.
  intros Hm Hk w. unfold bind. specialize (Hm w).
  destruct (m w) as [[a | e] w']; cbn [snd] in *.
  - by rewrite Hk.
  - exact Hm.
Qed.

Lemma keeps_try_catch {A} (m : Async A) (h : JsError -> Async A) :
  keeps_cells m -> (forall e, keeps_cells (h e)) -> keeps_cells (try_catch m h).
Proof.
  intros Hm Hh w. unfold try_catch. specialize (Hm w).
  destruct (m w) as [[a | e] w']; cbn [snd] in *.
  - exact Hm.
  - by rewrite Hh.
Qed.

Lemma keeps_await {A} op (answer : completion A) : keeps_cells (await op answer).
Proof. intros w. reflexivity. Qed.

Lemma keeps_lift {A} (c : completion A) : keeps_cells (lift c).
Proof. intros w. reflexivity. Qed.

Lemma keeps_log args : keeps_cells (log args).
Proof. intros w. reflexivity. Qed.

Lemma keeps_warn args : keeps_cells (warn args).
Proof. intros w. reflexivity. Qed.

Lemma keeps_error args : keeps_cells (error args).
Proof. intros w. reflexivity. Qed.

Ltac keeps :=
  repeat first
    [ apply keeps_try_catch | apply keeps_bind | apply keeps_await
    | apply keeps_lift | apply keeps_log | apply keeps_warn | apply keeps_error
    | apply keeps_ret | progress cbv zeta
    | match goal with
      | |- keeps_cells (if ?b then _ else _) => destruct b
      | |- forall _, _ => intro
      end ].

Lemma try_catch_completes (m : Async unit) (h : JsError -> Async unit) w :
  (forall e w', fst (h e w') = Normal tt) ->
  fst (try_catch m h w) = Normal tt.
Proof.
  intros Hh. unfold try_catch.
  destruct (m w) as [[[] | e] w']; [reflexivity | apply Hh].
Qed.

(** X15.  [fetchDeviceInformation] of the last revision never changes the
    state of the component: whatever the transport answers, the scanning
    flag, the device list, the connected device and the device data are
    after the call what they were before.  The fields it reads are only
    printed. *)
Theorem fetchDeviceInformation_stores_nothing w device :
  cells (snd (App.fetchDeviceInformation T device w)) = cells w.
Proof.
  revert w. change (keeps_cells (App.fetchDeviceInformation T device)).
  unfold App.fetchDeviceInformation, App.read. keeps.
Qed.

(** X16.  No handler lets an error escape: for every answer of the
    transport, [connectToDevice] (both files), [disconnectDevice] and
    [fetchDeviceInformation] (last and second revision) complete
    normally; a rejected call is caught and printed. *)
Theorem handlers_never_raise w device captured :
  fst (App.connectToDevice T captured device w) = Normal tt /\
  fst (Ble.connectToDevice T captured device w) = Normal tt /\
  fst (disconnectDevice T captured w) = Normal tt /\
  fst (App.fetchDeviceInformation T device w) = Normal tt /\
  fst (RevB.fetchDeviceInformation T device w) = Normal tt.
Proof.
  split; [| split; [| split; [| split]]].
  - apply try_catch_completes. intros e w'. unfold bind, error, act. cbn [fst snd].
    destruct captured as [cd |]; [| reflexivity].
    unfold bind, warn, act. apply disconnectDevice_summary.
  - by apply try_catch_completes.
  - destruct captured as [cd |]; [apply disconnectDevice_summary | reflexivity].
  - by apply try_catch_completes.
  - by apply try_catch_completes.
Qed.

(** X17.  [fetchDeviceInformation] of the last revision reads a
    characteristic only from a device that answered the connected check
    with yes, or that it has just reconnected and rediscovered: when the
    check fails, or the device is not connected and the reconnect or the
    rediscovery fails, no read is issued.  The reconnect is attempted at
    most once. *)
Theorem fetchDeviceInformation_reads_only_when_connected w device :
  exists ops,
    trace (snd (App.fetchDeviceInformation T device w)) = trace w ++ ops /\
    (Exists (fun op => is_read op = true) ops ->
     isConnected T device = Normal true \/
     (isConnected T device = Normal false /\
      is_Normal (connect T device) = true /\
      is_Normal (discoverAllServicesAndCharacteristics T device) = true)) /\
    (length (filter (fun op => is_connect op = true) ops) <= 1)%nat.
Proof.
  assert (Hreads : forall ops, Forall (fun op => is_read op = true) ops ->
            filter (fun op => is_connect op = true) ops = []).
  { intros ops Hall. induction Hall as [| op ops Hop _ IH]; [reflexivity |].
    rewrite filter_cons, IH. by destruct op. }
  destruct (isConnected T device) as [[|] | e] eqn:Hi.
  - assert (exists ops, trace (snd (App.fetchDeviceInformation T device w)) =
                          trace w ++ IsConnected device :: ops /\
                        Forall (fun op => is_read op = true) ops) as (ops & Ht & Hall).
    { unfold App.fetchDeviceInformation, App.read, try_catch, bind, await, log,
        error, act, ret, lift. cbn [fst snd]. rewrite Hi. cbn [fst snd].
      repeat match goal with
             | |- context [readCharacteristicForService T device ?s ?c] =>
                 destruct (readCharacteristicForService T device s c);
                 cbn [fst snd trace print issue]
             end;
        try match goal with
            | |- context [fst (readUInt16LE ?o ?b)] =>
                destruct (fst (readUInt16LE o b)); cbn [fst snd trace print issue]
            end;
        rewrite <- ?app_assoc; cbn [app];
        eexists; (split; [reflexivity |]); by repeat constructor. }
    exists (IsConnected device :: ops). split; [exact Ht |]. split; [by left |].
    rewrite filter_cons. cbn [is_connect]. rewrite decide_False by discriminate.
    rewrite (Hreads _ Hall). cbn; lia.
  - destruct (connect T device) as [c | e] eqn:Hc.
    + destruct (discoverAllServicesAndCharacteristics T device) as [d | e] eqn:Hd.
      * assert (exists ops, trace (snd (App.fetchDeviceInformation T device w)) =
                  trace w ++ IsConnected device :: Connect device ::
                            DiscoverAllServicesAndCharacteristics device :: ops /\
                  Forall (fun op => is_read op = true) ops) as (ops & Ht & Hall).
        { unfold App.fetchDeviceInformation, App.read, try_catch, bind, await, log,
            error, act, ret, lift. cbn [fst snd]. rewrite Hi, Hc, Hd. cbn [fst snd].
          repeat match goal with
                 | |- context [readCharacteristicForService T device ?s ?c] =>
                     destruct (readCharacteristicForService T device s c);
                     cbn [fst snd trace print issue]
                 end;
            try match goal with
                | |- context [fst (readUInt16LE ?o ?b)] =>
                    destruct (fst (readUInt16LE o b)); cbn [fst snd trace print issue]
                end;
            rewrite <- ?app_assoc; cbn [app];
            eexists; (split; [reflexivity |]); by repeat constructor. }
        eexists. split; [exact Ht |]. split; [by intros _; right |].
        rewrite !filter_cons. cbn [is_connect].
        rewrite decide_False by discriminate. rewrite decide_True by reflexivity.
        rewrite decide_False by discriminate.
        rewrite (Hreads _ Hall). cbn; lia.
      * exists [IsConnected device; Connect device;
                DiscoverAllServicesAndCharacteristics device].
        unfold App.fetchDeviceInformation, App.read, try_catch, bind, await, log,
          error, act, ret, lift. cbn [fst snd]. rewrite Hi, Hc, Hd. cbn.
        rewrite <- !app_assoc. split; [reflexivity |]. split; [| vm_compute; lia].
        intros Hex. exfalso. rewrite !Exists_cons, Exists_nil in Hex.
        cbn in Hex. intuition discriminate.
    + exists [IsConnected device; Connect device].
      unfold App.fetchDeviceInformation, App.read, try_catch, bind, await, log,
        error, act, ret, lift. cbn [fst snd]. rewrite Hi, Hc. cbn.
      rewrite <- !app_assoc. split; [reflexivity |]. split; [| vm_compute; lia].
      intros Hex. exfalso. rewrite !Exists_cons, Exists_nil in Hex.
      cbn in Hex. intuition discriminate.
  - exists [IsConnected device].
    unfold App.fetchDeviceInformation, App.read, try_catch, bind, await, log,
      error, act, ret, lift. cbn [fst snd]. rewrite Hi. cbn.
    split; [reflexivity |]. split; [| vm_compute; lia].
    intros Hex. exfalso. rewrite !Exists_cons, Exists_nil in Hex.
    cbn in Hex. intuition discriminate.
Qed.

End HandlerFrames.

(** ** The fields that are stored and shown *)

Section StoredFields.

Variable T : Transport.
Implicit Types (w : World) (device : Device.t).

Lemma or_else_same (s : string) : or_else (Some s) "" = s.
Proof. by destruct s. Qed.

(** X18.  In the second revision, when the device is connected and both
    reads succeed, [fetchDeviceInformation] replaces the device data by
    exactly two fields, [serialNumber] and [firmwareVersion], each the
    bytes of the base64 value read as UTF-8 text (a byte that starts no
    well-formed sequence reads as U+FFFD); whatever was stored before is
    gone.
    The transport has seen the connected check and the two reads. *)
Theorem RevB_fetch_stores_two_fields w device c1 c2 :
  isConnected T device = Normal true ->
  readCharacteristicForService T device "180A" "2A25" = Normal c1 ->
  readCharacteristicForService T device "180A" "2A26" = Normal c2 ->
  exists stored,
    deviceData (snd (RevB.fetchDeviceInformation T device w)) = Some stored /\
    stored !! "serialNumber" =
      Some (DString (toString_utf8 (Buffer_from_base64 (or_else (value c1) "")))) /\
    stored !! "firmwareVersion" =
      Some (DString (toString_utf8 (Buffer_from_base64 (or_else (value c2) "")))) /\
    (forall k, k <> "serialNumber" -> k <> "firmwareVersion" -> stored !! k = None) /\
    connectedDevice (snd (RevB.fetchDeviceInformation T device w)) = connectedDevice w /\
    trace (snd (RevB.fetchDeviceInformation T device w)) =
      trace w ++ [IsConnected device;
                  ReadCharacteristicForService device "180A" "2A25";
                  ReadCharacteristicForService device "180A" "2A26"].
Proof.
  intros Hi H1 H2.
  unfold RevB.fetchDeviceInformation, try_catch, bind, await, log, warn,
    error, act, ret.
  cbn [fst snd]. rewrite Hi, H1, H2. cbn [fst snd deviceData setDeviceData
    connectedDevice trace print issue].
  eexists. split; [reflexivity |].
  split; [by rewrite lookup_insert_eq |].
  split; [by rewrite lookup_insert_ne, lookup_insert_eq |].
  split; [| split; [reflexivity | by rewrite <- !app_assoc]].
  intros k Hk1 Hk2. by rewrite !lookup_insert_ne, lookup_empty.
Qed.

Lemma utf8Slice_ascii (buf : Buffer) :
  forallb (fun b => byte_to_Z b <? 128) buf = true ->
  concat (map utf8Bytes (utf8Slice buf)) = buf.
Proof.
  induction buf as [| b rest IH]; [reflexivity |].
  cbn [forallb]. intros [Hb Hrest]%andb_prop.
  cbn [utf8Slice]. rewrite Hb. cbn [map concat].
  rewrite (IH Hrest). unfold utf8Bytes. rewrite Hb. cbn [app].
  by rewrite byte_of_to_Z.
Qed.

Lemma toString_utf8_ascii (s : string) :
  ascii_text s = true -> toString_utf8 (list_byte_of_string s) = s.
Proof.
  intros Hs. unfold toString_utf8. rewrite utf8Slice_ascii by exact Hs.
  apply string_of_list_byte_of_string.
Qed.

(** X19.  An ASCII text that the device sends as the base64 of its bytes
    is read back unchanged: [text_of] of such a value is the text, and in
    the second revision the stored serial number is the text the device
    sent. *)
Theorem sent_text_is_read_back w device (serial : string) c2 :
  ascii_text serial = true ->
  App.text_of {| value := Some (toString_base64 (list_byte_of_string serial)) |} = serial /\
  (isConnected T device = Normal true ->
   readCharacteristicForService T device "180A" "2A25" =
     Normal {| value := Some (toString_base64 (list_byte_of_string serial)) |} ->
   readCharacteristicForService T device "180A" "2A26" = Normal c2 ->
   exists stored,
     deviceData (snd (RevB.fetchDeviceInformation T device w)) = Some stored /\
     stored !! "serialNumber" = Some (DString serial)).
Proof.
  intros Hascii.
  assert (toString_utf8
            (Buffer_from_base64
               (or_else (Some (toString_base64 (list_byte_of_string serial))) "")) =
          serial) as Htext.
  { rewrite or_else_same, Buffer_from_base64_toString.
    by apply toString_utf8_ascii. }
  split; [exact Htext |].
  intros Hi H1 H2.
  unfold RevB.fetchDeviceInformation, try_catch, bind, await, log, warn,
    error, act, ret.
  cbn [fst snd]. rewrite Hi, H1, H2.
  cbn [fst snd deviceData setDeviceData value].
  eexists. split; [reflexivity |].
  rewrite lookup_insert_eq. by rewrite Htext.
Qed.

End StoredFields.

Lemma RevB_fetch_stores_two_fields_witness :
  exists stored,
    deviceData (snd (RevB.fetchDeviceInformation Scenario.healthy Scenario.meter
                       Scenario.session)) = Some stored /\
    stored !! "serialNumber" = Some (DString "AB") /\
    stored !! "firmwareVersion" = Some (DString "AB").
Proof.
  destruct (RevB_fetch_stores_two_fields Scenario.healthy Scenario.session
              Scenario.meter {| value := Some "QUI=" |} {| value := Some "QUI=" |}
              eq_refl eq_refl eq_refl) as (stored & Hdata & Hs & Hf & _).
  exists stored. split; [exact Hdata |]. split; [exact Hs | exact Hf].
Defined.

Lemma sent_text_is_read_back_witness :
  App.text_of {| value := Some (toString_base64 (list_byte_of_string "SN-0042")) |} =
  "SN-0042".
Proof.
  exact (proj1 (sent_text_is_read_back Scenario.healthy initial Scenario.meter
                  "SN-0042" {| value := None |} eq_refl)).
Defined.

(** ** The notification listener *)

Section Notification.

Import RevA_monitor.
Implicit Types (st : State) (frame : Buffer).

(** X20.  The notification listener of the first revision leaves the
    device data alone when it is called with an error.  Otherwise it
    stores the parsed voltage under [batteryVoltage] and keeps every
    other field; the device data is then never [null], even if it was
    [null] before.  A notification that carries the base64 of a frame of
    at least four bytes stores the big-endian value of its first four
    bytes divided by 1000; a shorter frame stores [null]. *)
Theorem notification_merges_battery_voltage st :
  (forall message value, data (onNotification (Some message) value st) = data st) /\
  (forall value,
     exists stored,
       data (onNotification None value st) = Some stored /\
       stored !! "batteryVoltage" =
         Some (FVoltage (RevA.parseBatteryVoltage (Buffer_from_base64 value))) /\
       (forall k, k <> "batteryVoltage" -> stored !! k = default ∅ (data st) !! k)) /\
  (forall frame, (4 <= length frame)%nat ->
     exists stored,
       data (onNotification None (toString_base64 frame) st) = Some stored /\
       stored !! "batteryVoltage" =
         Some (FVoltage (Some (PrimFloat.div (number_of_Z (be_value (field 0 4 frame)))
                                             (number_of_Z 1000))))) /\
  (forall frame, (length frame < 4)%nat ->
     exists stored,
       data (onNotification None (toString_base64 frame) st) = Some stored /\
       stored !! "batteryVoltage" = Some (FVoltage None)).
Proof.
  assert (Hstore : forall value,
            exists stored,
              data (onNotification None value st) = Some stored /\
              stored !! "batteryVoltage" =
                Some (FVoltage (RevA.parseBatteryVoltage (Buffer_from_base64 value))) /\
              (forall k, k <> "batteryVoltage" ->
                         stored !! k = default ∅ (data st) !! k)).
  { intros value. unfold onNotification, parseBatteryVoltage_run,
      RevA.parseBatteryVoltage.
    destruct (fst (readUInt32BE 0 (Buffer_from_base64 value))) as [raw | e];
      cbn [data]; eexists; (split; [reflexivity |]);
      (split; [by rewrite lookup_insert_eq |]);
      intros k Hk; by rewrite lookup_insert_ne. }
  split; [reflexivity |]. split; [exact Hstore |]. split.
  - intros frame Hlen. destruct (Hstore (toString_base64 frame)) as (stored & Hd & Hv & _).
    exists stored. split; [exact Hd |]. rewrite Hv, Buffer_from_base64_toString.
    unfold RevA.parseBatteryVoltage. change 0 with (Z.of_nat 0).
    by rewrite readUInt32BE_in_bounds by lia.
  - intros frame Hlen. destruct (Hstore (toString_base64 frame)) as (stored & Hd & Hv & _).
    exists stored. split; [exact Hd |]. rewrite Hv, Buffer_from_base64_toString.
    unfold RevA.parseBatteryVoltage. change 0 with (Z.of_nat 0).
    by rewrite readUInt32BE_short by lia.
Qed.

Lemma notification_merges_battery_voltage_witness :
  exists stored,
    data (onNotification None (toString_base64 [x00; x00; x0b; xb8])
            {| data := None; out := [] |}) = Some stored /\
    stored !! "batteryVoltage" = Some (FVoltage (Some 3%float)).
Proof.
  destruct (proj1 (proj2 (proj2 (notification_merges_battery_voltage
                                   {| data := None; out := [] |})))
              [x00; x00; x0b; xb8]) as (stored & Hd & Hv); [cbn; lia |].
  exists stored. split; [exact Hd | exact Hv].
Defined.

End Notification.

Lemma fetchDeviceInformation_reads_only_when_connected_witness :
  isConnected Scenario.healthy Scenario.meter = Normal true \/
  (isConnected Scenario.healthy Scenario.meter = Normal false /\
   is_Normal (connect Scenario.healthy Scenario.meter) = true /\
   is_Normal (discoverAllServicesAndCharacteristics Scenario.healthy Scenario.meter) = true).
Proof.
  destruct (fetchDeviceInformation_reads_only_when_connected Scenario.healthy initial
              Scenario.meter) as (ops & Ht & Hgate & _).
  apply Hgate. cbn in Ht. subst ops.
  apply Exists_cons_tl, Exists_cons_hd. reflexivity.
Defined.

(** ** The disconnect listener and the handlers in flight *)

Section DisconnectInFlight.

Variable T : Transport.
Implicit Types (w : World) (cd device : Device.t).

(** The listener writes the two session cells and the console, a call
    is recorded in the trace: the two commute. *)
Lemma onDeviceDisconnected_issue deviceId op w :
  onDeviceDisconnected deviceId (issue op w) =
  issue op (onDeviceDisconnected deviceId w).
Proof.
  unfold onDeviceDisconnected. cbn [connectedDevice issue].
  destruct (connectedDevice w) as [cd |]; [| reflexivity].
  destruct (decide (Device.id cd = deviceId)); reflexivity.
Qed.

(** A handler that starts with an [await] and is interrupted there by the
    disconnect event goes on as if it had been run on the state the
    listener left. *)
Lemma interrupted_at_first_await {A B} op (answer : completion A)
    (k : A -> Async B) (h : JsError -> Async B) deviceId w :
  try_catch (bind (await_interrupted op answer (onDeviceDisconnected deviceId)) k) h w =
  try_catch (bind (await op answer) k) h (onDeviceDisconnected deviceId w).
Proof.
  unfold try_catch, bind, await_interrupted, await.
  by rewrite onDeviceDisconnected_issue.
Qed.

(** [fetchDeviceInformation] of the second revision starts with the
    connected check; the event delivered during that check leaves it to
    run on the cleared state, with the device it was called with. *)
Lemma RevB_fetch_interrupted device deviceId :
  exists k h,
    RevB.fetchDeviceInformation T device =
      try_catch (bind (await (IsConnected device) (isConnected T device)) k) h /\
    forall w,
      try_catch
        (bind (await_interrupted (IsConnected device) (isConnected T device)
                 (onDeviceDisconnected deviceId)) k) h w =
      RevB.fetchDeviceInformation T device (onDeviceDisconnected deviceId w).
Proof.
  do 2 eexists. split; [reflexivity |].
  intros w. apply interrupted_at_first_await.
Qed.

Lemma App_fetchDeviceInformation_keeps_cells device :
  keeps_cells (App.fetchDeviceInformation T device).
Proof.
  unfold App.fetchDeviceInformation, App.read.
  repeat first
    [ apply keeps_try_catch | apply keeps_bind | apply keeps_await
    | apply keeps_lift | apply keeps_log | apply keeps_warn | apply keeps_error
    | apply keeps_ret | progress cbv zeta
    | match goal with
      | |- keeps_cells (if ?b then _ else _) => destruct b
      | |- forall _, _ => intro
      end ].
Qed.

(** What a [fetchDeviceInformation] of the second revision leaves when
    the device answers the connected check with yes, or is reconnected
    and rediscovered, and both reads succeed. *)
Lemma RevB_fetch_stores device c1 c2 w :
  isConnected T device = Normal true \/
  (isConnected T device = Normal false /\
   is_Normal (connect T device) = true /\
   is_Normal (discoverAllServicesAndCharacteristics T device) = true) ->
  readCharacteristicForService T device "180A" "2A25" = Normal c1 ->
  readCharacteristicForService T device "180A" "2A26" = Normal c2 ->
  connectedDevice (snd (RevB.fetchDeviceInformation T device w)) = connectedDevice w /\
  deviceData (snd (RevB.fetchDeviceInformation T device w)) =
    Some (<["serialNumber" :=
              DString (toString_utf8 (Buffer_from_base64 (or_else (value c1) "")))]>
            (<["firmwareVersion" :=
                 DString (toString_utf8 (Buffer_from_base64 (or_else (value c2) "")))]>
               ∅)).
Proof.
  intros Hlink H1 H2.
  unfold RevB.fetchDeviceInformation, try_catch, bind, await, log, warn,
    error, act, ret.
  cbn [fst snd].
  destruct Hlink as [Hi | (Hi & Hc & Hd)]; rewrite Hi.
  - rewrite H1, H2. split; reflexivity.
  - destruct (connect T device) as [d' |] eqn:Hc'; [| discriminate Hc].
    destruct (discoverAllServicesAndCharacteristics T device) as [d'' |] eqn:Hd';
      [| discriminate Hd].
    cbn [fst snd]. rewrite H1, H2. split; reflexivity.
Qed.

(** C5, amended.  While a device is the connected one (the component is
    [Ready]), a disconnection of that device delivered to the listener
    leaves the component [Idle] with the connected-device cell and the
    device data both [null]; the scan state and the calls made are
    untouched and one warning is printed.  Nothing that is in flight is
    cancelled.  A [fetchDeviceInformation] of the last revision that goes
    on after the event leaves both cells [null], since it stores
    nothing.  A [fetchDeviceInformation] of the second revision that goes
    on after the event, finds the device connected or reconnects it, and
    gets its two reads, stores its two fields: the device data is then
    set again although no device is the connected one. *)
Theorem unsolicited_disconnect_clears_session w cd :
  connectedDevice w = Some cd ->
  connectionState w = Ready /\
  connectionState (onDeviceDisconnected (Device.id cd) w) = Idle /\
  connectedDevice (onDeviceDisconnected (Device.id cd) w) = None /\
  deviceData (onDeviceDisconnected (Device.id cd) w) = None /\
  isScanning (onDeviceDisconnected (Device.id cd) w) = isScanning w /\
  devices (onDeviceDisconnected (Device.id cd) w) = devices w /\
  trace (onDeviceDisconnected (Device.id cd) w) = trace w /\
  console (onDeviceDisconnected (Device.id cd) w) =
    console w ++ [(LWarn, [VStr "Device "; name_of cd;
                           VStr " disconnected unexpectedly."])] /\
  (forall device,
     connectedDevice
       (snd (App.fetchDeviceInformation T device
               (onDeviceDisconnected (Device.id cd) w))) = None /\
     deviceData
       (snd (App.fetchDeviceInformation T device
               (onDeviceDisconnected (Device.id cd) w))) = None) /\
  (forall device c1 c2,
     isConnected T device = Normal true \/
     (isConnected T device = Normal false /\
      is_Normal (connect T device) = true /\
      is_Normal (discoverAllServicesAndCharacteristics T device) = true) ->
     readCharacteristicForService T device "180A" "2A25" = Normal c1 ->
     readCharacteristicForService T device "180A" "2A26" = Normal c2 ->
     connectedDevice
       (snd (RevB.fetchDeviceInformation T device
               (onDeviceDisconnected (Device.id cd) w))) = None /\
     exists stored,
       deviceData
         (snd (RevB.fetchDeviceInformation T device
                 (onDeviceDisconnected (Device.id cd) w))) = Some stored /\
       is_Some (stored !! "serialNumber") /\
       is_Some (stored !! "firmwareVersion")).
Proof.
  intros Hcd.
  assert (connectedDevice (onDeviceDisconnected (Device.id cd) w) = None /\
          deviceData (onDeviceDisconnected (Device.id cd) w) = None) as [Hc1 Hd1].
  { unfold onDeviceDisconnected. rewrite Hcd.
    rewrite decide_True by reflexivity. split; reflexivity. }
  split; [unfold connectionState; by rewrite Hcd |].
  split; [unfold connectionState; by rewrite Hc1 |].
  split; [exact Hc1 |]. split; [exact Hd1 |].
  unfold onDeviceDisconnected at 1 2 3 4. rewrite Hcd.
  rewrite decide_True by reflexivity.
  do 4 (split; [reflexivity |]). split.
  - intros device.
    pose proof (App_fetchDeviceInformation_keeps_cells device
                  (onDeviceDisconnected (Device.id cd) w)) as Hkeep.
    unfold cells in Hkeep. injection Hkeep as _ _ Hc Hd.
    rewrite Hc, Hd. split; [exact Hc1 | exact Hd1].
  - intros device c1 c2 Hlink H1 H2.
    destruct (RevB_fetch_stores device c1 c2 (onDeviceDisconnected (Device.id cd) w)
                Hlink H1 H2) as [Hc Hd].
    split; [by rewrite Hc |].
    eexists. split; [exact Hd |]. split.
    + rewrite lookup_insert_eq. by eexists.
    + rewrite lookup_insert_ne by discriminate. rewrite lookup_insert_eq. by eexists.
Qed.

End DisconnectInFlight.

Lemma unsolicited_disconnect_clears_session_witness :
  connectedDevice Scenario.session = Some Scenario.meter /\
  deviceData Scenario.session <> None /\
  connectedDevice (onDeviceDisconnected "AA:BB:CC:DD:EE:01" Scenario.session) = None /\
  deviceData (onDeviceDisconnected "AA:BB:CC:DD:EE:01" Scenario.session) = None /\
  deviceData
    (snd (App.fetchDeviceInformation Scenario.back_in_range Scenario.meter
            (onDeviceDisconnected "AA:BB:CC:DD:EE:01" Scenario.session))) = None /\
  exists stored,
    deviceData
      (snd (RevB.fetchDeviceInformation Scenario.back_in_range Scenario.meter
              (onDeviceDisconnected "AA:BB:CC:DD:EE:01" Scenario.session))) =
      Some stored /\
    is_Some (stored !! "serialNumber").
Proof.
  split; [reflexivity |]. split; [discriminate |].
  pose proof (unsolicited_disconnect_clears_session Scenario.back_in_range
                Scenario.session Scenario.meter eq_refl)
    as (_ & _ & Hcd & Hdata & _ & _ & _ & _ & Happ & Hrevb).
  split; [exact Hcd |]. split; [exact Hdata |].
  split; [exact (proj2 (Happ Scenario.meter)) |].
  destruct (Hrevb Scenario.meter {| value := Some "QUI=" |} {| value := Some "QUI=" |}
              (or_intror (conj eq_refl (conj eq_refl eq_refl))) eq_refl eq_refl)
    as (_ & stored & Hstored & Hserial & _).
  exists stored. split; [exact Hstored | exact Hserial].
Defined.

(** C5, the claim as stated fails.  The meter is the connected device and
    a [fetchDeviceInformation] of the second revision has been started
    for it; the meter drops the link, the listener clears the session,
    and the meter is in range again.  The fetch goes on: it reconnects,
    reads and stores its two fields.  The component is [Idle], no device
    is the connected one, and the device data is set. *)
Lemma fetch_in_flight_stores_after_disconnect :
  connectionState Scenario.session = Ready /\
  deviceData (onDeviceDisconnected (Device.id Scenario.meter) Scenario.session) = None /\
  connectionState
    (snd (RevB.fetchDeviceInformation Scenario.back_in_range Scenario.meter
            (onDeviceDisconnected (Device.id Scenario.meter) Scenario.session))) = Idle /\
  deviceData
    (snd (RevB.fetchDeviceInformation Scenario.back_in_range Scenario.meter
            (onDeviceDisconnected (Device.id Scenario.meter) Scenario.session))) =
    Some (<["serialNumber" := DString "AB"]> (<["firmwareVersion" := DString "AB"]> ∅)) /\
  deviceData
    (snd (RevB.fetchDeviceInformation Scenario.back_in_range Scenario.meter
            (onDeviceDisconnected (Device.id Scenario.meter) Scenario.session))) <> None.
Proof.
  split; [reflexivity |]. split; [reflexivity |]. split; [reflexivity |].
  split; [reflexivity | discriminate].
Qed.
